(** * Line rendering and layer-family caching of mapbox-gl-js

    A shallow embedding of [js/render/draw_line.js] and of the
    [createLayerFamilies] cache of [bench/benchmarks/dds_update_bucket.js].

    - JavaScript numbers are modelled as extended real numbers: a finite
      value carries an exact real (rounding, overflow and the sign of zero
      are not modelled), and the three non-finite values [Infinity],
      [-Infinity] and [NaN] are explicit, so that a division by zero does
      what it does in JavaScript. What is proved of the uniforms on these
      numbers is which expression of the inputs each of them is.
    - The values [getExtra] returns depend on rounding, overflow and
      underflow: they are those of [Double.getExtra], the same function on
      IEEE 754 double-precision numbers, JavaScript's own.
    - The painter, the WebGL context and the atlases are collaborators of
      [drawLine]: every call the code makes on them is recorded, in order, in
      a trace of events. A computation returns the trace it emitted together
      with its completion: a value, or a thrown [TypeError] (reading a
      property of [undefined] or [null]).
    - [undefined] and [null] are [None].
    - The modules and classes the two files require and that are not part of
      them ([browser], [gl-matrix], [pixels_to_tile_units], [Worker]) are
      parameters. *)

From Stdlib Require Import Reals Lra FunctionalExtensionality Floats.
From stdpp Require Import gmap strings list.
From Equations Require Import Equations.

Set Default Proof Using "Type".

(** ** JavaScript numbers *)

Module JsNumber.

Inductive number : Type :=
| Num (r : R)
| PosInf
| NegInf
| NaN.

Definition Rleb (a b : R) : bool := if Rle_dec a b then true else false.
Definition Rltb (a b : R) : bool := if Rlt_dec a b then true else false.
Definition Reqb (a b : R) : bool := if Req_dec_T a b then true else false.

(** Unary minus. *)
Definition neg (a : number) : number :=
  match a with
  | Num r => Num (- r)
  | PosInf => NegInf
  | NegInf => PosInf
  | NaN => NaN
  end.

(** [a + b]. *)
Definition add (a b : number) : number :=
  match a, b with
  | NaN, _ | _, NaN => NaN
  | Num x, Num y => Num (x + y)
  | PosInf, NegInf | NegInf, PosInf => NaN
  | PosInf, _ | _, PosInf => PosInf
  | NegInf, _ | _, NegInf => NegInf
  end.

(** [a - b]. *)
Definition sub (a b : number) : number := add a (neg b).

(** [Infinity] or [-Infinity]. *)
Definition signedInf (positive : bool) : number :=
  if positive then PosInf else NegInf.

(** [a * b]: an infinity times zero is [NaN]. *)
Definition mul (a b : number) : number :=
  match a, b with
  | NaN, _ | _, NaN => NaN
  | Num x, Num y => Num (x * y)
  | Num x, PosInf | PosInf, Num x =>
      if Reqb x 0 then NaN else signedInf (Rltb 0 x)
  | Num x, NegInf | NegInf, Num x =>
      if Reqb x 0 then NaN else signedInf (Rltb x 0)
  | PosInf, PosInf | NegInf, NegInf => PosInf
  | PosInf, NegInf | NegInf, PosInf => NegInf
  end.

(** [a / b]: [0 / 0] and [Infinity / Infinity] are [NaN]; a non-zero finite
    number over zero is an infinity (zero is taken as [+0]). *)
Definition div (a b : number) : number :=
  match a, b with
  | NaN, _ | _, NaN => NaN
  | Num x, Num y =>
      if Reqb y 0
      then (if Reqb x 0 then NaN else signedInf (Rltb 0 x))
      else Num (x / y)
  | Num _, PosInf | Num _, NegInf => Num 0
  | PosInf, Num y => signedInf (Rleb 0 y)
  | NegInf, Num y => signedInf (Rltb y 0)
  | _, _ => NaN
  end.

(** [Math.sqrt]. *)
Definition sqrt (a : number) : number :=
  match a with
  | Num x => if Rltb x 0 then NaN else Num (R_sqrt.sqrt x)
  | PosInf => PosInf
  | NegInf | NaN => NaN
  end.

(** [Math.tan], [Math.cos] and [Math.sin]: finite on finite arguments, [NaN]
    elsewhere. (No floating-point number is an odd multiple of pi/2, where
    the real tangent has its poles.) *)
Definition tan (a : number) : number :=
  match a with
  | Num x => Num (Rtrigo1.tan x)
  | _ => NaN
  end.

Definition cos (a : number) : number :=
  match a with
  | Num x => Num (Rtrigo_def.cos x)
  | _ => NaN
  end.

Definition sin (a : number) : number :=
  match a with
  | Num x => Num (Rtrigo_def.sin x)
  | _ => NaN
  end.

(** [Math.min(a, b)]: [NaN] when either argument is. *)
Definition min (a b : number) : number :=
  match a, b with
  | NaN, _ | _, NaN => NaN
  | NegInf, _ | _, NegInf => NegInf
  | PosInf, c | c, PosInf => c
  | Num x, Num y => Num (Rmin x y)
  end.

(** [a <= b]: false as soon as one side is [NaN]. *)
Definition le (a b : number) : bool :=
  match a, b with
  | NaN, _ | _, NaN => false
  | NegInf, _ | _, PosInf => true
  | Num x, Num y => Rleb x y
  | _, _ => false
  end.

End JsNumber.

Import JsNumber.

Declare Scope js_scope.
Delimit Scope js_scope with js.
Bind Scope js_scope with number.
Infix "+" := add : js_scope.
Infix "-" := sub : js_scope.
Infix "*" := mul : js_scope.
Infix "/" := div : js_scope.
Notation "- a" := (neg a) : js_scope.
Notation "0" := (Num 0%R) : js_scope.
Notation "1" := (Num 1%R) : js_scope.
Notation "2" := (Num 2%R) : js_scope.
Notation "4" := (Num 4%R) : js_scope.
Notation "256" := (Num 256%R) : js_scope.

(** ** The camera transform *)

Record Transform : Type := {
  _pitch : number;
  angle : number;
  zoom : number;
  tileZoom : number;
  height : number;
  altitude : number
}.

(** [getExtra]: how much longer the real-world distance is at the top of the
    screen than at its middle. This is the expression the [u_extra] uniform
    is bound to; the values it takes in double precision are those of
    [Double.getExtra] below. *)
Definition getExtra (transform : Transform) : number :=
  let topedgelength :=
    sqrt (height transform * height transform / 4
          * (1 + altitude transform * altitude transform))%js in
  let x := (height transform / 2 * tan (_pitch transform))%js in
  ((topedgelength + x) / topedgelength - 1)%js.

(** A transform looking straight down (no pitch, no bearing) on a viewport
    of the given height. *)
Definition flatTransform (h a : number) : Transform :=
  {| _pitch := 0%js; angle := 0%js; zoom := 0%js; tileZoom := 0%js;
     height := h; altitude := a |}.

(** ** [getExtra] in double precision *)

(** [getExtra] on IEEE 754 double-precision numbers: [+], [-], [*], [/] and
    [Math.sqrt] are the correctly rounded operations of the standard.
    [Math.tan] is a parameter: ECMAScript leaves its results to the
    implementation, up to [Math.tan(+0) = +0] and [Math.tan(-0) = -0]. *)

Module Double.

Record Transform : Type := {
  _pitch : float;
  angle : float;
  zoom : float;
  tileZoom : float;
  height : float;
  altitude : float
}.

Section GetExtra.

Variable Math_tan : float -> float.

Definition getExtra (transform : Transform) : float :=
  let topedgelength :=
    PrimFloat.sqrt (height transform * height transform / 4
                    * (1 + altitude transform * altitude transform))%float in
  let x := (height transform / 2 * Math_tan (_pitch transform))%float in
  ((topedgelength + x) / topedgelength - 1)%float.

(** The two intermediate values of [getExtra]. *)
Definition topedgelength (transform : Transform) : float :=
  PrimFloat.sqrt (height transform * height transform / 4
                  * (1 + altitude transform * altitude transform))%float.


End GetExtra.







End Double.

(** ** Values handed to the GPU *)

Definition vec2 : Type := number * number.
Definition mat2 : Type := number * number * number * number.
Definition mat4 : Type := list number.

(** A uniform value: a number, or an array of numbers. *)
Inductive uvalue : Type :=
| UNum (n : number)
| UArr (l : list number).

Definition uvec2 (v : vec2) : uvalue := UArr [v.1; v.2].

(** The object literal handed to [painter.setUniforms]. *)
Abbreviation uniforms := (gmap string uvalue).

Inductive glconst : Type :=
| STENCIL_TEST
| TEXTURE0
| TRIANGLES
| UNSIGNED_SHORT.

(** ** Style layers *)

(** A cross-faded style value, as the style's transition system resolves
    it: the two values being blended, a scale for each, and the mix. *)
Record Faded (A : Type) : Type := {
  from : A;
  to : A;
  fromScale : number;
  toScale : number;
  t : number
}.
Arguments from {A} _.
Arguments to {A} _.
Arguments fromScale {A} _.
Arguments toScale {A} _.
Arguments t {A} _.

(** [layer.paint]: the properties [drawLine] reads. A property that is not
    set ([undefined], falsy) is [None]. *)
Record Paint : Type := {
  line_width : number;
  line_blur : number;
  line_opacity : number;
  line_offset : number;
  line_gap_width : number;
  line_translate : vec2;
  line_translate_anchor : string;
  line_dasharray : option (Faded (list number));
  line_pattern : option (Faded string)
}.

Record Layout : Type := {
  line_cap : string
}.

Record Layer : Type := {
  layer_id : string;
  paint : Paint;
  layout : Layout
}.

(** ** Buckets *)

Record ProgramOptions : Type := {
  defines : list string;
  vertexPragmas : gmap string string;
  fragmentPragmas : gmap string string
}.

(** What [painter.useProgram] returns. A uniform location such as
    [program.u_matrix] is the program together with the uniform's name. *)
Record Program : Type := {
  program_name : string;
  program_defines : list string;
  program_vertexPragmas : gmap string string;
  program_fragmentPragmas : gmap string string
}.

Definition UniformLocation : Type := Program * string.

Record Buffer : Type := {
  buffer_name : string;
  buffer_length : N
}.

(** A buffer group; [vaos] and [paintVertexBuffers] are indexed by layer id,
    and hold an entry for every layer the bucket was built for. *)
Record BufferGroup : Type := {
  layoutVertexBuffer : Buffer;
  elementBuffer : Buffer;
  vaos : string -> string;
  paintVertexBuffers : string -> Buffer
}.

(** A bucket: [bufferGroups_line] is [bucket.bufferGroups.line],
    [paintAttributes_line] is [bucket.paintAttributes.line], which holds a
    descriptor for every layer of the bucket, and [getUniforms] is
    [bucket.getUniforms('line', program, layer, {zoom: zoom})]. *)
Record Bucket : Type := {
  bufferGroups_line : option (list BufferGroup);
  paintAttributes_line : string -> ProgramOptions;
  getUniforms_line : Program -> Layer -> number -> uniforms
}.

Record Tile : Type := {
  tile_uid : string;
  getBucket : Layer -> option Bucket
}.

Record TileCoord : Type := {
  coord_id : N;
  posMatrix : mat4
}.

Record Source : Type := {
  getTile : TileCoord -> Tile
}.

(** ** Atlases *)

(** An entry of the dash atlas, [{y, height, width}]. *)
Record DashEntry : Type := {
  dash_y : number;
  dash_height : number;
  dash_width : number
}.

Record LineAtlas : Type := {
  atlas_width : number;
  getDash : list number -> bool -> option DashEntry
}.

(** An entry of the sprite atlas, [{size, tl, br}]. *)
Record ImagePos : Type := {
  size : vec2;
  tl : vec2;
  br : vec2
}.

Record SpriteAtlas : Type := {
  getPosition : string -> bool -> option ImagePos
}.

(** ** The painter *)

Record Painter : Type := {
  isOpaquePass : bool;
  transform : Transform;
  lineAtlas : LineAtlas;
  spriteAtlas : SpriteAtlas;
  translatePosMatrix : mat4 -> Tile -> vec2 -> string -> mat4
}.

(** The calls [drawLine] makes on the painter, on the WebGL context, on the
    atlases and on the vertex array objects. *)
Inductive event : Type :=
| SetDepthSublayer (n : number)
| DepthMask (mask : bool)
| Enable (cap : glconst)
| UseProgram (name : string) (defs : list string)
    (vertexPrag fragmentPrag : gmap string string)
| SetUniforms (u : uniforms)
| UniformMatrix2fv (loc : UniformLocation) (transpose : bool) (m : mat2)
| UniformMatrix4fv (loc : UniformLocation) (transpose : bool) (m : mat4)
| Uniform1i (loc : UniformLocation) (v : Z)
| ActiveTexture (unit : glconst)
| LineAtlasBind
| SpriteAtlasBind (repeating : bool)
| EnableTileClippingMask (coord : TileCoord)
| VaoBind (vao : string) (program : Program)
    (layoutBuffer elementBuf paintBuffer : Buffer)
| DrawElements (mode : glconst) (count : N) (type : glconst) (offset : N).

(** ** Computations: a trace of events and a completion *)

Inductive error : Type :=
| TypeError.

Inductive completion (A : Type) : Type :=
| Normal (a : A)
| Throw (e : error).
Arguments Normal {A} a.
Arguments Throw {A} e.

Definition M (A : Type) : Type := list event * completion A.

Definition ret {A} (a : A) : M A := ([], Normal a).

Definition bind {A B} (m : M A) (f : A -> M B) : M B :=
  match m.2 with
  | Normal a => (m.1 ++ (f a).1, (f a).2)
  | Throw e => (m.1, Throw e)
  end.

Definition emit (e : event) : M unit := ([e], Normal tt).

Definition throw {A} (e : error) : M A := ([], Throw e).

(** Reading a property of a value that may be [undefined] or [null]. *)
Definition deref {A} (o : option A) : M A :=
  match o with
  | Some a => ret a
  | None => throw TypeError
  end.

Notation "x <- m ;; k" := (bind m (fun x => k))
  (at level 100, m at next level, right associativity).
Notation "m ;;; k" := (bind m (fun _ => k))
  (at level 100, right associativity).

(** A [for] loop over an array, the body run on each element in turn. *)
Fixpoint forEach {A} (body : A -> M unit) (l : list A) : M unit :=
  match l with
  | [] => ret tt
  | a :: l' => body a ;;; forEach body l'
  end.

Definition trace {A} (m : M A) : list event := m.1.
Definition result {A} (m : M A) : completion A := m.2.

(** ** The modules [draw_line.js] requires *)

(** [require('../util/browser')]. *)
Record Browser : Type := {
  devicePixelRatio : number
}.

(** [require('gl-matrix').mat2]: [scale] and [rotate] are called with the
    same matrix as output and input, and give its new contents. *)
Record Mat2 : Type := {
  mat2_create : mat2;
  mat2_scale : mat2 -> vec2 -> mat2;
  mat2_rotate : mat2 -> number -> mat2
}.

(** ** [draw_line.js] *)

Section DrawLine.

Variable browser : Browser.
Variable gl_mat2 : Mat2.
(** [require('../source/pixels_to_tile_units')]. *)
Variable pixelsToTileUnits : Tile -> number -> number -> number.

(** [painter.useProgram(name, defines, vertexPragmas, fragmentPragmas)]. *)
Definition useProgram (name : string) (defs : list string)
    (vp fp : gmap string string) : M Program :=
  emit (UseProgram name defs vp fp) ;;;
  ret {| program_name := name; program_defines := defs;
         program_vertexPragmas := vp; program_fragmentPragmas := fp |}.

(** The uniforms object of [bindLineSDFPatternProgram]. *)
Definition sdfUniforms (painter : Painter) (tile : Tile)
    (dasharray : Faded (list number)) (posA posB : DashEntry) : uniforms :=
  let widthA := (dash_width posA * fromScale dasharray)%js in
  let widthB := (dash_width posB * toScale dasharray)%js in
  {[ "u_tex_y_a" := UNum (dash_y posA);
     "u_tex_y_b" := UNum (dash_y posB);
     "u_mix" := UNum (t dasharray);
     "u_patternscale_a" :=
       UArr [(1 / pixelsToTileUnits tile widthA (tileZoom (transform painter)))%js;
             (- dash_height posA / 2)%js];
     "u_patternscale_b" :=
       UArr [(1 / pixelsToTileUnits tile widthB (tileZoom (transform painter)))%js;
             (- dash_height posB / 2)%js];
     "u_sdfgamma" :=
       UNum (atlas_width (lineAtlas painter)
             / (min widthA widthB * 256 * devicePixelRatio browser) / 2)%js ]}.

(** [layer.layout['line-cap'] === 'round']. *)
Definition roundCap (layer : Layer) : bool :=
  String.eqb (line_cap (layout layer)) "round".

Definition bindLineSDFPatternProgram (painter : Painter) (source : Source)
    (layer : Layer) (tile : Tile) (programOptions : ProgramOptions)
    (dasharray : Faded (list number)) : M Program :=
  program <- useProgram "linesdfpattern" (defines programOptions)
               (vertexPragmas programOptions) (fragmentPragmas programOptions) ;;
  let posA := getDash (lineAtlas painter) (from dasharray) (roundCap layer) in
  let posB := getDash (lineAtlas painter) (to dasharray) (roundCap layer) in
  posA' <- deref posA ;;
  posB' <- deref posB ;;
  emit (SetUniforms (sdfUniforms painter tile dasharray posA' posB')) ;;;
  emit (Uniform1i (program, "u_image") 0) ;;;
  emit (ActiveTexture TEXTURE0) ;;;
  emit LineAtlasBind ;;;
  ret program.

(** The uniforms object of [bindLinePatternProgram]. *)
Definition patternUniforms (painter : Painter) (tile : Tile)
    (image : Faded string) (imagePosA imagePosB : ImagePos) : uniforms :=
  {[ "u_pattern_tl_a" := uvec2 (tl imagePosA);
     "u_pattern_br_a" := uvec2 (br imagePosA);
     "u_pattern_tl_b" := uvec2 (tl imagePosB);
     "u_pattern_br_b" := uvec2 (br imagePosB);
     "u_fade" := UNum (t image);
     "u_pattern_size_a" :=
       UArr [pixelsToTileUnits tile ((size imagePosA).1 * fromScale image)%js
               (tileZoom (transform painter));
             (size imagePosB).2];
     "u_pattern_size_b" :=
       UArr [pixelsToTileUnits tile ((size imagePosB).1 * toScale image)%js
               (tileZoom (transform painter));
             (size imagePosB).2] ]}.

(** [bindLinePatternProgram] returns [undefined] when an image is missing
    from the sprite atlas. *)
Definition bindLinePatternProgram (painter : Painter) (source : Source)
    (layer : Layer) (tile : Tile) (programOptions : ProgramOptions)
    (image : Faded string) : M (option Program) :=
  program <- useProgram "linepattern" (defines programOptions)
               (vertexPragmas programOptions) (fragmentPragmas programOptions) ;;
  let imagePosA := getPosition (spriteAtlas painter) (from image) true in
  let imagePosB := getPosition (spriteAtlas painter) (to image) true in
  match imagePosA, imagePosB with
  | Some imagePosA, Some imagePosB =>
      emit (SetUniforms (patternUniforms painter tile image imagePosA imagePosB)) ;;;
      emit (Uniform1i (program, "u_image") 0) ;;;
      emit (ActiveTexture TEXTURE0) ;;;
      emit (SpriteAtlasBind true) ;;;
      ret (Some program)
  | _, _ => ret None
  end.

Definition bindLineProgram (painter : Painter) (source : Source)
    (layer : Layer) (tile : Tile) (programOptions : ProgramOptions) : M Program :=
  useProgram "line" (defines programOptions)
    (vertexPragmas programOptions) (fragmentPragmas programOptions).

(** The [if] / [else if] / [else] of [drawLine] that binds the program of
    the layer; [program] is [undefined] when the binder returned nothing. *)
Definition bindProgram (painter : Painter) (source : Source)
    (layer : Layer) (tile : Tile) (programOptions : ProgramOptions)
    : M (option Program) :=
  match line_dasharray (paint layer) with
  | Some dasharray =>
      program <- bindLineSDFPatternProgram painter source layer tile
                   programOptions dasharray ;;
      ret (Some program)
  | None =>
      match line_pattern (paint layer) with
      | Some image =>
          bindLinePatternProgram painter source layer tile programOptions image
      | None =>
          program <- bindLineProgram painter source layer tile programOptions ;;
          ret (Some program)
      end
  end.

(** The first uniforms object of the loop of [drawLine]. *)
Definition sharedUniforms (painter : Painter) (layer : Layer) (tile : Tile)
    : uniforms :=
  {[ "u_ratio" := UNum (1 / pixelsToTileUnits tile 1 (zoom (transform painter)))%js;
     "u_blur" := UNum (line_blur (paint layer) + 1 / devicePixelRatio browser)%js;
     "u_extra" := UNum (getExtra (transform painter));
     "u_linewidth" := UNum (line_width (paint layer) / 2)%js;
     "u_opacity" := UNum (line_opacity (paint layer));
     "u_offset" := UNum (- line_offset (paint layer))%js;
     "u_gapwidth" := UNum (line_gap_width (paint layer) / 2)%js;
     "u_antialiasing" := UNum (1 / devicePixelRatio browser / 2)%js ]}.

(** One buffer group: bind its vertex array object, then draw. *)
Definition drawGroup (layer : Layer) (program : Program) (group : BufferGroup)
    : M unit :=
  emit (VaoBind (vaos group (layer_id layer)) program
          (layoutVertexBuffer group) (elementBuffer group)
          (paintVertexBuffers group (layer_id layer))) ;;;
  emit (DrawElements TRIANGLES (buffer_length (elementBuffer group) * 3)
          UNSIGNED_SHORT 0).

(** The body of the loop of [drawLine] over the coordinates; [ret tt] where
    the code has [continue]. *)
Definition drawLineCoord (painter : Painter) (source : Source) (layer : Layer)
    (antialiasingMatrix : mat2) (coord : TileCoord) : M unit :=
  let tile := getTile source coord in
  match getBucket tile layer with
  | None => ret tt
  | Some bucket =>
      match bufferGroups_line bucket with
      | None => ret tt
      | Some bufferGroups =>
          let programOptions := paintAttributes_line bucket (layer_id layer) in
          program <- bindProgram painter source layer tile programOptions ;;
          let posMatrix :=
            translatePosMatrix painter (posMatrix coord) tile
              (line_translate (paint layer))
              (line_translate_anchor (paint layer)) in
          emit (SetUniforms (sharedUniforms painter layer tile)) ;;;
          program' <- deref program ;;
          emit (UniformMatrix2fv (program', "u_antialiasingmatrix") false
                  antialiasingMatrix) ;;;
          emit (UniformMatrix4fv (program', "u_matrix") false posMatrix) ;;;
          emit (SetUniforms (getUniforms_line bucket program' layer
                               (zoom (transform painter)))) ;;;
          emit (EnableTileClippingMask coord) ;;;
          forEach (drawGroup layer program') bufferGroups
      end
  end.

(** The events of a coordinate between the binding of the program and the
    draw calls, for the program that was bound. *)
Definition coordUniformEvents (painter : Painter) (source : Source)
    (layer : Layer) (antialiasingMatrix : mat2) (coord : TileCoord)
    (bucket : Bucket) (program : Program) : list event :=
  let tile := getTile source coord in
  [SetUniforms (sharedUniforms painter layer tile);
   UniformMatrix2fv (program, "u_antialiasingmatrix") false antialiasingMatrix;
   UniformMatrix4fv (program, "u_matrix") false
     (translatePosMatrix painter (posMatrix coord) tile
        (line_translate (paint layer)) (line_translate_anchor (paint layer)));
   SetUniforms (getUniforms_line bucket program layer (zoom (transform painter)));
   EnableTileClippingMask coord].

(** The matrix [drawLine] builds before its loop. *)
Definition antialiasingMatrixOf (painter : Painter) : mat2 :=
  mat2_rotate gl_mat2
    (mat2_scale gl_mat2 (mat2_create gl_mat2)
       (1%js, cos (_pitch (transform painter))))
    (angle (transform painter)).

Definition drawLine (painter : Painter) (source : Source) (layer : Layer)
    (coords : list TileCoord) : M unit :=
  if isOpaquePass painter then ret tt else
  emit (SetDepthSublayer 0) ;;;
  emit (DepthMask false) ;;;
  emit (Enable STENCIL_TEST) ;;;
  if le (line_width (paint layer)) 0 then ret tt else
  let antialiasingMatrix := mat2_create gl_mat2 in
  let antialiasingMatrix :=
    mat2_scale gl_mat2 antialiasingMatrix
      (1%js, cos (_pitch (transform painter))) in
  let antialiasingMatrix :=
    mat2_rotate gl_mat2 antialiasingMatrix (angle (transform painter)) in
  forEach (drawLineCoord painter source layer antialiasingMatrix) coords.

End DrawLine.

(** ** [dds_update_bucket.js]: the cache of [createLayerFamilies] *)

Section CreateLayerFamilies.

(** A style layer of the stylesheet, and the families a worker groups them
    into. *)
Variable StyleLayer : Type.
Variable LayerFamilies : Type.

(** [new Worker(...)] followed by [worker['set layers'](layers)]: what it
    leaves in [worker.layerFamilies], from the contents of [layers]. *)
Variable set_layers : list StyleLayer -> LayerFamilies.

(** An array is an object: [!==] compares [array_ref], the identity, and
    never the elements. *)
Record LayerArray : Type := {
  array_ref : positive;
  array_elems : list StyleLayer
}.

(** [worker.layerFamilies] is an object too, created with its worker. *)
Record FamiliesObject : Type := {
  families_ref : positive;
  families_value : LayerFamilies
}.

(** The two module-level variables, [undefined] until the first call, the
    next free object identity, and the number of workers constructed. *)
Record Globals : Type := {
  createLayerFamiliesCacheKey : option positive;
  createLayerFamiliesCacheValue : option FamiliesObject;
  nextObject : positive;
  workersCreated : nat
}.

Definition initialGlobals (firstFree : positive) : Globals :=
  {| createLayerFamiliesCacheKey := None;
     createLayerFamiliesCacheValue := None;
     nextObject := firstFree;
     workersCreated := 0 |}.

Definition createLayerFamilies (layers : LayerArray) (g : Globals)
    : option FamiliesObject * Globals :=
  let g' :=
    if bool_decide (Some (array_ref layers) ≠ createLayerFamiliesCacheKey g)
    then
      let worker_layerFamilies :=
        {| families_ref := nextObject g;
           families_value := set_layers (array_elems layers) |} in
      {| createLayerFamiliesCacheKey := Some (array_ref layers);
         createLayerFamiliesCacheValue := Some worker_layerFamilies;
         nextObject := Pos.succ (nextObject g);
         workersCreated := S (workersCreated g) |}
    else g in
  (createLayerFamiliesCacheValue g', g').

(** Every object the cache holds was created before [nextObject]. *)
Definition cacheAllocated (g : Globals) : Prop :=
  match createLayerFamiliesCacheValue g with
  | Some f => (families_ref f < nextObject g)%positive
  | None => True
  end.

End CreateLayerFamilies.

Arguments array_ref {StyleLayer} _.
Arguments array_elems {StyleLayer} _.
Arguments families_ref {LayerFamilies} _.
Arguments families_value {LayerFamilies} _.
Arguments createLayerFamiliesCacheKey {LayerFamilies} _.
Arguments createLayerFamiliesCacheValue {LayerFamilies} _.
Arguments nextObject {LayerFamilies} _.
Arguments workersCreated {LayerFamilies} _.
Arguments createLayerFamilies {StyleLayer LayerFamilies} _ _ _.
Arguments cacheAllocated {LayerFamilies} _.
Arguments initialGlobals {LayerFamilies} _.

(** ** Reading a trace *)

(** The three state changes [drawLine] makes before it looks at the width. *)
Definition prologue : list event :=
  [SetDepthSublayer 0%js; DepthMask false; Enable STENCIL_TEST].

(** The call [painter.useProgram(name, ...)] with a bucket's options for the
    layer, and the program it returns. *)
Definition useEvent (programOptions : ProgramOptions) (name : string) : event :=
  UseProgram name (defines programOptions) (vertexPragmas programOptions)
    (fragmentPragmas programOptions).

Definition programOf (programOptions : ProgramOptions) (name : string)
    : Program :=
  {| program_name := name;
     program_defines := defines programOptions;
     program_vertexPragmas := vertexPragmas programOptions;
     program_fragmentPragmas := fragmentPragmas programOptions |}.

Definition isDrawElements (e : event) : bool :=
  match e with
  | DrawElements TRIANGLES _ _ _ => true
  | _ => false
  end.

(** The names of the programs a trace asks the painter to use. *)
Fixpoint programsUsed (tr : list event) : list string :=
  match tr with
  | [] => []
  | UseProgram name _ _ _ :: tr' => name :: programsUsed tr'
  | _ :: tr' => programsUsed tr'
  end.

(** The indexed triangle draw calls of a trace. *)
Definition drawEvents (tr : list event) : list event :=
  filter (fun e => isDrawElements e = true) tr.

(** The draw call of a buffer group. *)
Definition groupDraw (group : BufferGroup) : event :=
  DrawElements TRIANGLES (buffer_length (elementBuffer group) * 3)
    UNSIGNED_SHORT 0.

(** The value a uniform has after a trace: the one of the last
    [setUniforms] call that names it. *)
Fixpoint uniformAfter (name : string) (tr : list event) (cur : option uvalue)
    : option uvalue :=
  match tr with
  | [] => cur
  | SetUniforms u :: tr' =>
      uniformAfter name tr'
        (match u !! name with Some v => Some v | None => cur end)
  | _ :: tr' => uniformAfter name tr' cur
  end.

(** The buffer groups [drawLine] reaches for a coordinate: none when the
    tile has no bucket for the layer, or the bucket no line groups. *)
Definition groupsOf (source : Source) (layer : Layer) (coord : TileCoord)
    : list BufferGroup :=
  match getBucket (getTile source coord) layer with
  | Some bucket => default [] (bufferGroups_line bucket)
  | None => []
  end.

(** ** The selector's table *)

(** The three variants of the line program and the name each goes by. *)
Inductive Variant : Type :=
| Solid
| Dashed
| Patterned.

Definition programNameOf (v : Variant) : string :=
  match v with
  | Solid => "line"
  | Dashed => "linesdfpattern"
  | Patterned => "linepattern"
  end.

(** The variant the specification's table gives a layer: dashed when the
    paint has a dash pattern, patterned when it has an image pattern and no
    dash, solid when it has neither. *)
Definition specVariant (p : Paint) : Variant :=
  match line_dasharray p, line_pattern p with
  | Some _, _ => Dashed
  | None, Some _ => Patterned
  | None, None => Solid
  end.

(** ** A small scene *)

Module Scene.

Definition browser1 : Browser := {| devicePixelRatio := 1%js |}.

(** [mat2] of gl-matrix: the identity, a scaling of the columns, and a
    rotation. *)
Definition glMatrix : Mat2 :=
  {| mat2_create := (1, 0, 0, 1)%js;
     mat2_scale := fun a v =>
       match a with
       | (a0, a1, a2, a3) => (a0 * v.1, a1 * v.1, a2 * v.2, a3 * v.2)%js
       end;
     mat2_rotate := fun a rad =>
       match a with
       | (a0, a1, a2, a3) =>
           (a0 * cos rad + a2 * sin rad, a1 * cos rad + a3 * sin rad,
            a0 * - sin rad + a2 * cos rad, a1 * - sin rad + a3 * cos rad)%js
       end |}.

(** Sixteen tile units to the pixel, whatever the tile and the zoom. *)
Definition sixteenUnits (tile : Tile) (pixelValue z : number) : number :=
  (pixelValue * Num 16)%js.

Definition noOptions : ProgramOptions :=
  {| defines := []; vertexPragmas := ∅; fragmentPragmas := ∅ |}.

Definition group (name : string) (triangles : N) : BufferGroup :=
  {| layoutVertexBuffer := {| buffer_name := name; buffer_length := 4 |};
     elementBuffer := {| buffer_name := name; buffer_length := triangles |};
     vaos := fun id => id;
     paintVertexBuffers := fun id => {| buffer_name := id; buffer_length := 4 |} |}.

Definition bucket2 : Bucket :=
  {| bufferGroups_line := Some [group "g0" 2; group "g1" 5];
     paintAttributes_line := fun _ => noOptions;
     getUniforms_line := fun _ _ _ => ∅ |}.

Definition tile1 : Tile :=
  {| tile_uid := "t"; getBucket := fun _ => Some bucket2 |}.

Definition source1 : Source := {| getTile := fun _ => tile1 |}.

Definition coord0 : TileCoord := {| coord_id := 0; posMatrix := [] |}.
Definition coord1 : TileCoord := {| coord_id := 1; posMatrix := [] |}.

Definition dashes : Faded (list number) :=
  {| from := [2; 1]%js; to := [4; 2]%js;
     fromScale := 1%js; toScale := 2%js; t := 0%js |}.

Definition images : Faded string :=
  {| from := "stripe"; to := "stripe-wide";
     fromScale := 1%js; toScale := 2%js; t := 0%js |}.

Definition paintOf (width blur : number)
    (dasharray : option (Faded (list number))) (pattern : option (Faded string))
    : Paint :=
  {| line_width := width; line_blur := blur; line_opacity := 1%js;
     line_offset := 0%js; line_gap_width := 0%js;
     line_translate := (0, 0)%js; line_translate_anchor := "map";
     line_dasharray := dasharray; line_pattern := pattern |}.

Definition layerOf (p : Paint) : Layer :=
  {| layer_id := "road"; paint := p; layout := {| line_cap := "butt" |} |}.

Definition solidLayer : Layer := layerOf (paintOf 2 0 None None)%js.
Definition thinLayer : Layer := layerOf (paintOf 0 0 None None)%js.
Definition dashedLayer : Layer := layerOf (paintOf 2 0 (Some dashes) None)%js.
Definition patternLayer : Layer := layerOf (paintOf 2 0 None (Some images))%js.

Definition dashOf (w : number) : DashEntry :=
  {| dash_y := 0%js; dash_height := 1%js; dash_width := w |}.

(** A dash atlas that holds every dash, as wide as its first stroke, and one
    that is out of space. *)
Definition fullLineAtlas : LineAtlas :=
  {| atlas_width := 256%js;
     getDash := fun id _ => Some (dashOf (nth 0 id 0%js)) |}.

Definition noLineAtlas : LineAtlas :=
  {| atlas_width := 256%js; getDash := fun _ _ => None |}.

Definition imageOf (w h : number) : ImagePos :=
  {| size := (w, h); tl := (0, 0)%js; br := (1, 1)%js |}.

(** A sprite atlas whose images are loaded, and one still loading. *)
Definition loadedSprites : SpriteAtlas :=
  {| getPosition := fun id _ =>
       Some (if String.eqb id "stripe" then imageOf 2 4 else imageOf 4 256)%js |}.

Definition noSprites : SpriteAtlas :=
  {| getPosition := fun _ _ => None |}.

Definition painterOf (opaque : bool) (sprites : SpriteAtlas)
    (atlas : LineAtlas) : Painter :=
  {| isOpaquePass := opaque;
     transform := flatTransform (Num 600) 1%js;
     lineAtlas := atlas;
     spriteAtlas := sprites;
     translatePosMatrix := fun m _ _ _ => m |}.

(** Two arrays of the same style layers, and a worker that puts every layer
    in a family of its own. *)
Definition ownFamilies (layers : list string) : list (list string) :=
  map (fun l => [l]) layers.

Definition layersA : LayerArray string :=
  {| array_ref := 10; array_elems := ["road"; "water"] |}.

Definition layersB : LayerArray string :=
  {| array_ref := 11; array_elems := ["road"; "water"] |}.

(** The painter outside the opaque pass, while the sprites load, once they
    are loaded, and with a dash atlas out of space; and in the opaque pass. *)
Definition loading : Painter := painterOf false noSprites fullLineAtlas.
Definition ready : Painter := painterOf false loadedSprites fullLineAtlas.
Definition spaceless : Painter := painterOf false loadedSprites noLineAtlas.
Definition opaque : Painter := painterOf true loadedSprites fullLineAtlas.

End Scene.

(** ** Reading what [drawLine] does to the coordinates *)

Definition isSome {A} (o : option A) : bool :=
  match o with
  | Some _ => true
  | None => false
  end.

(** A coordinate is reached when its tile has a bucket for the layer and
    the bucket has line buffer groups: the two [continue] of the loop are
    not taken. *)
Definition reached (source : Source) (layer : Layer) (coord : TileCoord)
    : bool :=
  match getBucket (getTile source coord) layer with
  | Some bucket => isSome (bufferGroups_line bucket)
  | None => false
  end.

(** The atlas entries the binder of the layer's variant reads are there:
    both dashes of a dashed layer, both images of a patterned one. *)
Definition assetsReady (painter : Painter) (layer : Layer) : bool :=
  match line_dasharray (paint layer), line_pattern (paint layer) with
  | Some dasharray, _ =>
      isSome (getDash (lineAtlas painter) (from dasharray) (roundCap layer))
      && isSome (getDash (lineAtlas painter) (to dasharray) (roundCap layer))
  | None, Some image =>
      isSome (getPosition (spriteAtlas painter) (from image) true)
      && isSome (getPosition (spriteAtlas painter) (to image) true)
  | None, None => true
  end.

(** The draw calls of a trace, each with the coordinate whose clipping mask
    was the last one enabled before it. *)
Fixpoint drawsUnderMask (mask : option TileCoord) (tr : list event)
    : list (option TileCoord * event) :=
  match tr with
  | [] => []
  | EnableTileClippingMask coord :: tr' => drawsUnderMask (Some coord) tr'
  | e :: tr' =>
      if isDrawElements e
      then (mask, e) :: drawsUnderMask mask tr'
      else drawsUnderMask mask tr'
  end.

(** The draw calls [drawLine] owes a coordinate. *)
Definition drawsOwed (source : Source) (layer : Layer) (coord : TileCoord)
    : list (option TileCoord * event) :=
  map (fun group => (Some coord, groupDraw group)) (groupsOf source layer coord).

(** What the events of [drawLine] have in common: the state it sets is
    always the same, and it draws triangles only. *)
Definition lineEvent (e : event) : Prop :=
  match e with
  | SetDepthSublayer n => n = 0%js
  | DepthMask mask => mask = false
  | Enable cap => cap = STENCIL_TEST
  | UseProgram name _ _ _ => name ∈ ["line"; "linesdfpattern"; "linepattern"]
  | UniformMatrix2fv loc transpose _ =>
      loc.2 = "u_antialiasingmatrix" /\ transpose = false
  | UniformMatrix4fv loc transpose _ => loc.2 = "u_matrix" /\ transpose = false
  | Uniform1i loc v => loc.2 = "u_image" /\ v = 0%Z
  | ActiveTexture unit => unit = TEXTURE0
  | SpriteAtlasBind repeating => repeating = true
  | DrawElements mode count type offset =>
      mode = TRIANGLES /\ (3 | count)%N /\ type = UNSIGNED_SHORT /\ offset = 0%N
  | SetUniforms _ | LineAtlasBind | EnableTileClippingMask _
  | VaoBind _ _ _ _ _ => True
  end.

(** ** [dds_update_bucket.js]: [asyncTimesSeries] *)

Section AsyncTimesSeries.

(** An error, and what a callback-passing function answers: whatever comes
    of the calls it makes. [callback()] and [callback(undefined)] are
    [callback None]. *)
Context {Err Ans : Type}.

(** [times] is a whole number of runs. *)
Equations? asyncTimesSeries (times : Z) (work : (option Err -> Ans) -> Ans)
    (callback : option Err -> Ans) : Ans by wf (Z.to_nat times) lt :=
  asyncTimesSeries times work callback with Z_gt_dec times 0 := {
    | left _ =>
        work (fun err =>
                match err with
                | Some e => callback (Some e)
                | None => asyncTimesSeries (times - 1) work callback
                end);
    | right _ => callback None }.
Proof. lia. Defined.

End AsyncTimesSeries.

Definition SAMPLE_COUNT : Z := 10.

Section Tasks.

Context {Err St Ans : Type}.

(** A piece of work that changes a state and then calls its callback once,
    with the error it met or with none. *)
Definition callingBack (task : St -> option Err * St)
    (callback : option Err -> St -> Ans) : St -> Ans :=
  fun s => callback (task s).1 (task s).2.

(** The loop a series amounts to: run the task [n] times in a row, stopping
    at the first error. *)
Fixpoint inSeries (n : nat) (task : St -> option Err * St) (s : St)
    : option Err * St :=
  match n with
  | O => (None, s)
  | S n' =>
      match (task s).1 with
      | Some e => (Some e, (task s).2)
      | None => inSeries n' task (task s).2
      end
  end.

End Tasks.

(** ** [dds_update_bucket.js]: the samples of [run] *)

(** The events [run] fires while it samples: ['error'] with the error,
    ['log'] with a message, ['end'] with a message and the score. *)
Inductive fired (Err : Type) : Type :=
| FireError (error : Err)
| FireLog (message : string)
| FireEnd (message : string) (score : number).
Arguments FireError {Err} error.
Arguments FireLog {Err} message.
Arguments FireEnd {Err} message score.

(** The two counters of [run], the events fired so far, and the world the
    samples are taken in. *)
Record Sampling (Err World : Type) : Type := {
  timeSum : number;
  timeCount : number;
  events : list (fired Err);
  world : World
}.
Arguments timeSum {Err World} _.
Arguments timeCount {Err World} _.
Arguments events {Err World} _.
Arguments world {Err World} _.

Section RunSamples.

Context {Err World : Type}.

(** [require('../lib/format_number')]. *)
Variable formatNumber : number -> string.

(** [runSample(stylesheet, getGlyphs, getIcons, getTile, getWorkerTile,
    callback)], with [callback(err, time)]. *)
Variable runSample :
  (option Err -> number -> Sampling Err World -> Sampling Err World) ->
  Sampling Err World -> Sampling Err World.

Definition fire (e : fired Err) (s : Sampling Err World) : Sampling Err World :=
  {| timeSum := timeSum s; timeCount := timeCount s;
     events := events s ++ [e]; world := world s |}.

(** The work of one sample: on an error the callback of the series is not
    called. *)
Definition sampleWork
    (callback : option Err -> Sampling Err World -> Sampling Err World)
    : Sampling Err World -> Sampling Err World :=
  runSample (fun err time s =>
    match err with
    | Some e => fire (FireError e) s
    | None =>
        let s1 := {| timeSum := (timeSum s + time)%js;
                     timeCount := (timeCount s + 1)%js;
                     events := events s; world := world s |} in
        callback None (fire (FireLog (formatNumber time ++ " ms")) s1)
    end).

(** The callback the series ends with. *)
Definition samplesDone (err : option Err) (s : Sampling Err World)
    : Sampling Err World :=
  match err with
  | Some e => fire (FireError e) s
  | None =>
      let timeAverage := (timeSum s / timeCount s)%js in
      fire (FireEnd (formatNumber timeAverage ++ " ms") timeAverage) s
  end.

(** The sampling of [run], once the assets are preloaded: the two counters
    start at zero. *)
Definition runSamples (s : Sampling Err World) : Sampling Err World :=
  asyncTimesSeries SAMPLE_COUNT sampleWork samplesDone
    {| timeSum := 0%js; timeCount := 0%js;
       events := events s; world := world s |}.

End RunSamples.

(** A [runSample] that takes its outcome from the world and calls back
    once. *)
Definition samplingOnce {Err World : Type}
    (sample : World -> option Err * number * World)
    (callback : option Err -> number -> Sampling Err World -> Sampling Err World)
    (s : Sampling Err World) : Sampling Err World :=
  callback (sample (world s)).1.1 (sample (world s)).1.2
    {| timeSum := timeSum s; timeCount := timeCount s;
       events := events s; world := (sample (world s)).2 |}.

(** The times of the samples taken in a row from a world, up to [n] of them
    or to the first error, that error, and the world they leave. *)
Fixpoint samplesTaken {Err World : Type} (n : nat)
    (sample : World -> option Err * number * World) (w : World)
    : list number * option Err * World :=
  match n with
  | O => ([], None, w)
  | S n' =>
      match (sample w).1.1 with
      | Some e => ([], Some e, (sample w).2)
      | None =>
          let rest := samplesTaken n' sample (sample w).2 in
          ((sample w).1.2 :: rest.1.1, rest.1.2, rest.2)
      end
  end.

(** The ['log'] event of a sample. *)
Definition sampleLog {Err : Type} (formatNumber : number -> string)
    (time : number) : fired Err :=
  FireLog (formatNumber time ++ " ms").

(** ** [dds_update_bucket.js]: the stylesheet [run] prepares *)

(** A paint value: what the stylesheet came with, or a function of a
    feature property given by its stops. *)
Inductive PaintValue : Type :=
| Json (text : string)
| PropertyFunction (property : string) (stops : list (Z * string)).

Record StylesheetLayer : Type := {
  sheet_id : string;
  sheet_type : string;
  sheet_paint : option (gmap string PaintValue)
}.

(** The body of the [forEach] over [stylesheet.layers]. *)
Definition colorByLevel (layer : StylesheetLayer) : StylesheetLayer :=
  match sheet_paint layer with
  | Some paint =>
      if String.eqb (sheet_type layer) "fill"
      then {| sheet_id := sheet_id layer;
              sheet_type := sheet_type layer;
              sheet_paint :=
                Some (<["fill-color" :=
                          PropertyFunction "level" [(0, "white"); (100, "blue")]%Z]>
                        paint) |}
      else layer
  | None => layer
  end.

Definition colorLayersByLevel (layers : list StylesheetLayer)
    : list StylesheetLayer :=
  map colorByLevel layers.

(** ** [dds_update_bucket.js]: the property data [runSample] keeps *)

Section PropertyData.

(** The properties of a feature. *)
Variable Properties : Type.

(** A layer of a vector tile: [layer.length] and
    [layer.feature(i).properties]. *)
Record VectorTileLayer : Type := {
  vt_length : nat;
  vt_properties : nat -> Properties
}.

(** The inner loop, from [i] on, with the array built so far. *)
Fixpoint pushProperties (layer : VectorTileLayer) (i remaining : nat)
    (array : list Properties) : list Properties :=
  match remaining with
  | O => array
  | S remaining' =>
      pushProperties layer (S i) remaining'
        (array ++ [vt_properties layer i])
  end.

(** The outer loop over the layer ids of the tile. *)
Definition copyPropertyData (layers : gmap string VectorTileLayer)
    : gmap string (list Properties) :=
  map_fold
    (fun layerId layer propertyData =>
       <[layerId := pushProperties layer 0 (vt_length layer) []]> propertyData)
    ∅ layers.

End PropertyData.

Arguments vt_length {Properties} _.
Arguments vt_properties {Properties} _ _.
Arguments pushProperties {Properties} _ _ _ _.
Arguments copyPropertyData {Properties} _.

(** ** Runs of [createLayerFamilies] *)

Section CacheRuns.

Context {StyleLayer LayerFamilies : Type}.
Variable set_layers : list StyleLayer -> LayerFamilies.

(** The globals after a run of calls. *)
Definition afterCalls (calls : list (LayerArray StyleLayer))
    (g : Globals LayerFamilies) : Globals LayerFamilies :=
  foldl (fun g layers => (createLayerFamilies set_layers layers g).2) g calls.

(** The calls of a run whose array is not the one of the call before. *)
Fixpoint referenceChanges (previous : option positive) (refs : list positive)
    : nat :=
  match refs with
  | [] => 0
  | r :: refs' =>
      (if bool_decide (Some r = previous) then 0 else 1)
      + referenceChanges (Some r) refs'
  end.

End CacheRuns.

(** ** [dds_update_bucket.js]: the assets recorded by [preloadAssets] and
    replayed by [run] *)

Section Assets.

(** Request parameters, glyphs, icons, tile buffers, errors, and what a
    callback-passing function answers. *)
Context {Params Glyphs Icons TileData Err Ans : Type}.

(** [JSON.stringify]. *)
Variable stringify : Params -> string.

(** [assets]: an entry may hold [undefined]. *)
Record Assets : Type := {
  assets_glyphs : gmap string (option Glyphs);
  assets_icons : gmap string (option Icons);
  assets_tiles : gmap string (option TileData)
}.

(** [object[key]]: [undefined] for a missing key and for a key that holds
    [undefined]. *)
Definition property {V} (object : gmap string (option V)) (key : string)
    : option V :=
  default None (object !! key).

(** [getGlyphs], [getIcons] and [getTile] of [preloadAssets]: they ask the
    style, or the network, and keep what comes back. *)
Definition recordGlyphs
    (styleGetGlyphs :
       Params -> (option Err -> option Glyphs -> Assets -> Ans) -> Assets -> Ans)
    (params : Params) (callback : option Err -> option Glyphs -> Assets -> Ans)
    : Assets -> Ans :=
  styleGetGlyphs params (fun err glyphs assets =>
    callback err glyphs
      {| assets_glyphs := <[stringify params := glyphs]> (assets_glyphs assets);
         assets_icons := assets_icons assets;
         assets_tiles := assets_tiles assets |}).

Definition recordIcons
    (styleGetIcons :
       Params -> (option Err -> option Icons -> Assets -> Ans) -> Assets -> Ans)
    (params : Params) (callback : option Err -> option Icons -> Assets -> Ans)
    : Assets -> Ans :=
  styleGetIcons params (fun err icons assets =>
    callback err icons
      {| assets_glyphs := assets_glyphs assets;
         assets_icons := <[stringify params := icons]> (assets_icons assets);
         assets_tiles := assets_tiles assets |}).

Definition recordTile
    (getArrayBuffer :
       string -> (option Err -> option TileData -> Assets -> Ans) -> Assets -> Ans)
    (url : string) (callback : option Err -> option TileData -> Assets -> Ans)
    : Assets -> Ans :=
  getArrayBuffer url (fun err response assets =>
    callback err response
      {| assets_glyphs := assets_glyphs assets;
         assets_icons := assets_icons assets;
         assets_tiles := <[url := response]> (assets_tiles assets) |}).

(** [getGlyphs], [getIcons] and [getTile] of [run]: they answer from what
    was kept, with [null] for error. *)
Definition replayGlyphs (params : Params)
    (callback : option Err -> option Glyphs -> Assets -> Ans) : Assets -> Ans :=
  fun assets =>
    callback None (property (assets_glyphs assets) (stringify params)) assets.

Definition replayIcons (params : Params)
    (callback : option Err -> option Icons -> Assets -> Ans) : Assets -> Ans :=
  fun assets =>
    callback None (property (assets_icons assets) (stringify params)) assets.

Definition replayTile (url : string)
    (callback : option Err -> option TileData -> Assets -> Ans) : Assets -> Ans :=
  fun assets => callback None (property (assets_tiles assets) url) assets.

End Assets.

Arguments Assets : clear implicits.

(** ** More of the scene *)

Module Scene2.

Import Scene.

(** A tile without a bucket, and a source whose tile at coordinate 0 is that
    one. *)
Definition emptyTile : Tile :=
  {| tile_uid := "e"; getBucket := fun _ => None |}.

Definition source2 : Source :=
  {| getTile := fun coord =>
       if N.eqb (coord_id coord) 0 then emptyTile else tile1 |}.

Definition coord2 : TileCoord := {| coord_id := 2; posMatrix := [] |}.

(** [layersA] after its second layer was removed in place. *)
Definition layersA' : LayerArray string :=
  {| array_ref := 10; array_elems := ["road"] |}.

(** A stylesheet: a fill layer with a paint, a line layer, and a fill layer
    without a paint. *)
Definition water : StylesheetLayer :=
  {| sheet_id := "water"; sheet_type := "fill";
     sheet_paint := Some {[ "fill-opacity" := Json "0.5";
                            "fill-color" := Json "#aaccee" ]} |}.

Definition road : StylesheetLayer :=
  {| sheet_id := "road"; sheet_type := "line";
     sheet_paint := Some {[ "line-width" := Json "2" ]} |}.

Definition park : StylesheetLayer :=
  {| sheet_id := "park"; sheet_type := "fill"; sheet_paint := None |}.

End Scene2.

(** * Properties *)

(** ** Arithmetic on finite numbers *)

Section NumberFacts.

Local Open Scope R_scope.

Lemma Rleb_true (a b : R) : a <= b -> Rleb a b = true.
Proof. intros H. unfold Rleb. destruct (Rle_dec a b); [reflexivity | contradiction]. Qed.

Lemma Rleb_false (a b : R) : b < a -> Rleb a b = false.
Proof. intros H. unfold Rleb. destruct (Rle_dec a b); [lra | reflexivity]. Qed.

Lemma Rltb_false (a b : R) : b <= a -> Rltb a b = false.
Proof. intros H. unfold Rltb. destruct (Rlt_dec a b); [lra | reflexivity]. Qed.

Lemma Reqb_true (a : R) : Reqb a a = true.
Proof. unfold Reqb. destruct (Req_dec_T a a); [reflexivity | contradiction]. Qed.

Lemma Reqb_false (a b : R) : a <> b -> Reqb a b = false.
Proof. intros H. unfold Reqb. destruct (Req_dec_T a b); [contradiction | reflexivity]. Qed.

Lemma div_Num (x y : R) : y <> 0 -> div (Num x) (Num y) = Num (x / y).
Proof. intros H. unfold div. rewrite Reqb_false by assumption. reflexivity. Qed.

Lemma div_zero_zero : div (Num 0) (Num 0) = NaN.
Proof. unfold div. rewrite !Reqb_true. reflexivity. Qed.

Lemma sqrt_Num (x : R) : 0 <= x -> sqrt (Num x) = Num (R_sqrt.sqrt x).
Proof. intros H. unfold sqrt. rewrite Rltb_false by assumption. reflexivity. Qed.

Lemma le_Num_false (x y : R) : y < x -> le (Num x) (Num y) = false.
Proof. intros H. simpl. apply Rleb_false, H. Qed.

Lemma le_Num_true (x y : R) : x <= y -> le (Num x) (Num y) = true.
Proof. intros H. simpl. apply Rleb_true, H. Qed.

Lemma Num_inj (x y : R) : Num x = Num y -> x = y.
Proof. intros H. injection H as H. exact H. Qed.

End NumberFacts.

(** ** Doubles *)

Section DoubleFacts.

Local Open Scope float_scope.







End DoubleFacts.

(** ** Sequencing *)

Section MonadFacts.

Context {A B : Type}.

Lemma bind_Normal (m : M A) (f : A -> M B) (a : A) :
  result m = Normal a ->
  bind m f = (trace m ++ trace (f a), result (f a)).
Proof. unfold bind, result, trace. intros ->. reflexivity. Qed.

Lemma bind_Throw (m : M A) (f : A -> M B) (e : error) :
  result m = Throw e -> bind m f = (trace m, Throw e).
Proof. unfold bind, result, trace. intros ->. reflexivity. Qed.

Lemma bind_result_Normal (m : M A) (f : A -> M B) (b : B) :
  result (bind m f) = Normal b ->
  exists a : A, result m = Normal a /\ result (f a) = Normal b.
Proof.
  unfold bind, result. destruct (m.2) as [a | e]; simpl; intros H.
  - exists a. split; [reflexivity | exact H].
  - discriminate H.
Qed.

Lemma trace_bind_prefix (m : M A) (f : A -> M B) :
  exists rest : list event, trace (bind m f) = trace m ++ rest.
Proof.
  unfold bind, trace. destruct (m.2) as [a | e]; simpl.
  - eexists. reflexivity.
  - exists []. rewrite app_nil_r. reflexivity.
Qed.

End MonadFacts.

Lemma drawEvents_app (tr1 tr2 : list event) :
  drawEvents (tr1 ++ tr2) = drawEvents tr1 ++ drawEvents tr2.
Proof. unfold drawEvents. apply filter_app. Qed.

Lemma drawEvents_concat (trs : list (list event)) :
  drawEvents (concat trs) = concat (map drawEvents trs).
Proof.
  induction trs as [| tr trs IH]; [reflexivity |].
  simpl. rewrite drawEvents_app, IH. reflexivity.
Qed.

Lemma forEach_cons {A} (body : A -> M unit) (a : A) (l : list A) :
  forEach body (a :: l) = bind (body a) (fun _ => forEach body l).
Proof. reflexivity. Qed.

(** A loop that completes ran every body to completion, and its trace is the
    bodies' traces in order. *)
Lemma forEach_Normal {A} (body : A -> M unit) (l : list A) :
  result (forEach body l) = Normal tt ->
  Forall (fun a => result (body a) = Normal tt) l
  /\ trace (forEach body l) = concat (map (fun a => trace (body a)) l).
Proof.
  induction l as [| a l IH]; intros H.
  - split; [constructor | reflexivity].
  - rewrite forEach_cons in H |- *.
    destruct (bind_result_Normal _ _ _ H) as ([] & Ha & Hl).
    destruct (IH Hl) as [Hall Htr].
    split; [constructor; assumption |].
    rewrite (bind_Normal _ _ tt Ha). unfold trace at 1. simpl.
    rewrite <- Htr. reflexivity.
Qed.

Lemma forEach_all_Normal {A} (body : A -> M unit) (l : list A) :
  (forall a : A, result (body a) = Normal tt) ->
  result (forEach body l) = Normal tt.
Proof.
  intros Hbody. induction l as [| a l IH]; [reflexivity |].
  rewrite forEach_cons, (bind_Normal _ _ tt (Hbody a)). exact IH.
Qed.

(** ** The program binders *)

Section Binders.

Context (browser : Browser) (pixelsToTileUnits : Tile -> number -> number -> number).
Context (painter : Painter) (source : Source) (layer : Layer) (tile : Tile).
Context (programOptions : ProgramOptions).

Lemma bindLineSDFPatternProgram_bound (dasharray : Faded (list number))
    (posA posB : DashEntry) :
  getDash (lineAtlas painter) (from dasharray) (roundCap layer) = Some posA ->
  getDash (lineAtlas painter) (to dasharray) (roundCap layer) = Some posB ->
  bindLineSDFPatternProgram browser pixelsToTileUnits painter source layer tile
    programOptions dasharray
  = ([useEvent programOptions "linesdfpattern";
      SetUniforms (sdfUniforms browser pixelsToTileUnits painter tile dasharray
                     posA posB);
      Uniform1i (programOf programOptions "linesdfpattern", "u_image") 0;
      ActiveTexture TEXTURE0;
      LineAtlasBind],
     Normal (programOf programOptions "linesdfpattern")).
Proof.
  intros HA HB. unfold bindLineSDFPatternProgram.
  rewrite HA, HB. reflexivity.
Qed.

Lemma bindLineSDFPatternProgram_missing (dasharray : Faded (list number)) :
  getDash (lineAtlas painter) (from dasharray) (roundCap layer) = None
  \/ getDash (lineAtlas painter) (to dasharray) (roundCap layer) = None ->
  bindLineSDFPatternProgram browser pixelsToTileUnits painter source layer tile
    programOptions dasharray
  = ([useEvent programOptions "linesdfpattern"], Throw TypeError).
Proof.
  intros H. unfold bindLineSDFPatternProgram.
  destruct (getDash (lineAtlas painter) (from dasharray) _) as [posA |] eqn:HA.
  - destruct H as [H | H]; [discriminate H |]. rewrite H. reflexivity.
  - reflexivity.
Qed.

Lemma bindLinePatternProgram_bound (image : Faded string)
    (imagePosA imagePosB : ImagePos) :
  getPosition (spriteAtlas painter) (from image) true = Some imagePosA ->
  getPosition (spriteAtlas painter) (to image) true = Some imagePosB ->
  bindLinePatternProgram pixelsToTileUnits painter source layer tile
    programOptions image
  = ([useEvent programOptions "linepattern";
      SetUniforms (patternUniforms pixelsToTileUnits painter tile image
                     imagePosA imagePosB);
      Uniform1i (programOf programOptions "linepattern", "u_image") 0;
      ActiveTexture TEXTURE0;
      SpriteAtlasBind true],
     Normal (Some (programOf programOptions "linepattern"))).
Proof.
  intros HA HB. unfold bindLinePatternProgram. rewrite HA, HB. reflexivity.
Qed.

Lemma bindLinePatternProgram_missing (image : Faded string) :
  getPosition (spriteAtlas painter) (from image) true = None
  \/ getPosition (spriteAtlas painter) (to image) true = None ->
  bindLinePatternProgram pixelsToTileUnits painter source layer tile
    programOptions image
  = ([useEvent programOptions "linepattern"], Normal None).
Proof.
  intros H. unfold bindLinePatternProgram.
  destruct (getPosition (spriteAtlas painter) (from image) true) as [a |];
    destruct (getPosition (spriteAtlas painter) (to image) true) as [b |];
    try reflexivity.
  destruct H as [H | H]; discriminate H.
Qed.

End Binders.

(** ** The loop of [drawLine] *)

Section Loop.

Context (browser : Browser) (gl_mat2 : Mat2).
Context (pixelsToTileUnits : Tile -> number -> number -> number).
Context (painter : Painter) (source : Source) (layer : Layer).

Lemma bindProgram_programsUsed (tile : Tile) (programOptions : ProgramOptions) :
  programsUsed
    (trace (bindProgram browser pixelsToTileUnits painter source layer tile
              programOptions))
  = [match line_dasharray (paint layer), line_pattern (paint layer) with
     | Some _, _ => "linesdfpattern"
     | None, Some _ => "linepattern"
     | None, None => "line"
     end].
Proof.
  unfold bindProgram.
  destruct (line_dasharray (paint layer)) as [dasharray |].
  - unfold bindLineSDFPatternProgram.
    destruct (getDash (lineAtlas painter) (from dasharray) _) as [posA |];
      [destruct (getDash (lineAtlas painter) (to dasharray) _) as [posB |] |];
      reflexivity.
  - destruct (line_pattern (paint layer)) as [image |]; [| reflexivity].
    unfold bindLinePatternProgram.
    destruct (getPosition (spriteAtlas painter) (from image) true) as [a |];
      destruct (getPosition (spriteAtlas painter) (to image) true) as [b |];
      reflexivity.
Qed.

Lemma bindProgram_result_name (tile : Tile) (programOptions : ProgramOptions)
    (program : Program) :
  result (bindProgram browser pixelsToTileUnits painter source layer tile
            programOptions) = Normal (Some program) ->
  program_name program
  = match line_dasharray (paint layer), line_pattern (paint layer) with
    | Some _, _ => "linesdfpattern"
    | None, Some _ => "linepattern"
    | None, None => "line"
    end.
Proof.
  unfold bindProgram.
  destruct (line_dasharray (paint layer)) as [dasharray |].
  - unfold bindLineSDFPatternProgram.
    destruct (getDash (lineAtlas painter) (from dasharray) _) as [posA |];
      [destruct (getDash (lineAtlas painter) (to dasharray) _) as [posB |] |];
      cbn; intros H; inversion H; reflexivity.
  - destruct (line_pattern (paint layer)) as [image |].
    + unfold bindLinePatternProgram.
      destruct (getPosition (spriteAtlas painter) (from image) true) as [a |];
        destruct (getPosition (spriteAtlas painter) (to image) true) as [b |];
        cbn; intros H; inversion H; reflexivity.
    + cbn. intros H. inversion H. reflexivity.
Qed.

Lemma bindProgram_drawEvents (tile : Tile) (programOptions : ProgramOptions) :
  drawEvents
    (trace (bindProgram browser pixelsToTileUnits painter source layer tile
              programOptions)) = [].
Proof.
  unfold bindProgram.
  destruct (line_dasharray (paint layer)) as [dasharray |].
  - unfold bindLineSDFPatternProgram.
    destruct (getDash (lineAtlas painter) (from dasharray) _) as [posA |];
      [destruct (getDash (lineAtlas painter) (to dasharray) _) as [posB |] |];
      reflexivity.
  - destruct (line_pattern (paint layer)) as [image |]; [| reflexivity].
    unfold bindLinePatternProgram.
    destruct (getPosition (spriteAtlas painter) (from image) true) as [a |];
      destruct (getPosition (spriteAtlas painter) (to image) true) as [b |];
      reflexivity.
Qed.

Lemma drawGroups_result (program : Program) (groups : list BufferGroup) :
  result (forEach (drawGroup layer program) groups) = Normal tt.
Proof. induction groups as [| g groups IH]; [reflexivity | exact IH]. Qed.

Lemma drawGroups_drawEvents (program : Program) (groups : list BufferGroup) :
  drawEvents (trace (forEach (drawGroup layer program) groups))
  = map groupDraw groups.
Proof.
  induction groups as [| g groups IH]; [reflexivity |].
  rewrite forEach_cons.
  rewrite (bind_Normal _ _ tt) by reflexivity.
  unfold trace at 1. cbn [fst]. rewrite drawEvents_app.
  fold (trace (forEach (drawGroup layer program) groups)). rewrite IH.
  reflexivity.
Qed.

Lemma drawLineCoord_no_bucket (m : mat2) (coord : TileCoord) :
  getBucket (getTile source coord) layer = None ->
  drawLineCoord browser pixelsToTileUnits painter source layer m coord = ret tt.
Proof. intros H. unfold drawLineCoord. rewrite H. reflexivity. Qed.

Lemma drawLineCoord_no_groups (m : mat2) (coord : TileCoord) (bucket : Bucket) :
  getBucket (getTile source coord) layer = Some bucket ->
  bufferGroups_line bucket = None ->
  drawLineCoord browser pixelsToTileUnits painter source layer m coord = ret tt.
Proof. intros H1 H2. unfold drawLineCoord. rewrite H1, H2. reflexivity. Qed.

Lemma drawLineCoord_bound (m : mat2) (coord : TileCoord) (bucket : Bucket)
    (groups : list BufferGroup) (program : Program) :
  getBucket (getTile source coord) layer = Some bucket ->
  bufferGroups_line bucket = Some groups ->
  result (bindProgram browser pixelsToTileUnits painter source layer
            (getTile source coord)
            (paintAttributes_line bucket (layer_id layer)))
  = Normal (Some program) ->
  drawLineCoord browser pixelsToTileUnits painter source layer m coord
  = (trace (bindProgram browser pixelsToTileUnits painter source layer
              (getTile source coord)
              (paintAttributes_line bucket (layer_id layer)))
     ++ coordUniformEvents browser pixelsToTileUnits painter source layer m
          coord bucket program
     ++ trace (forEach (drawGroup layer program) groups),
     Normal tt).
Proof.
  intros H1 H2 Hb. unfold drawLineCoord. rewrite H1, H2.
  rewrite (bind_Normal _ _ _ Hb). f_equal.
  cbn. apply drawGroups_result.
Qed.

Lemma drawLineCoord_unbound (m : mat2) (coord : TileCoord) (bucket : Bucket)
    (groups : list BufferGroup) :
  getBucket (getTile source coord) layer = Some bucket ->
  bufferGroups_line bucket = Some groups ->
  result (bindProgram browser pixelsToTileUnits painter source layer
            (getTile source coord)
            (paintAttributes_line bucket (layer_id layer)))
  = Normal None ->
  drawLineCoord browser pixelsToTileUnits painter source layer m coord
  = (trace (bindProgram browser pixelsToTileUnits painter source layer
              (getTile source coord)
              (paintAttributes_line bucket (layer_id layer)))
     ++ [SetUniforms (sharedUniforms browser pixelsToTileUnits painter layer
                        (getTile source coord))],
     Throw TypeError).
Proof.
  intros H1 H2 Hb. unfold drawLineCoord. rewrite H1, H2.
  rewrite (bind_Normal _ _ _ Hb). reflexivity.
Qed.

Lemma drawLineCoord_bind_throws (m : mat2) (coord : TileCoord) (bucket : Bucket)
    (groups : list BufferGroup) (e : error) :
  getBucket (getTile source coord) layer = Some bucket ->
  bufferGroups_line bucket = Some groups ->
  result (bindProgram browser pixelsToTileUnits painter source layer
            (getTile source coord)
            (paintAttributes_line bucket (layer_id layer)))
  = Throw e ->
  drawLineCoord browser pixelsToTileUnits painter source layer m coord
  = (trace (bindProgram browser pixelsToTileUnits painter source layer
              (getTile source coord)
              (paintAttributes_line bucket (layer_id layer))),
     Throw e).
Proof.
  intros H1 H2 Hb. unfold drawLineCoord. rewrite H1, H2.
  rewrite (bind_Throw _ _ _ Hb). reflexivity.
Qed.

End Loop.

(** ** [drawLine] as a whole *)

Section DrawLineFacts.

Context (browser : Browser) (gl_mat2 : Mat2).
Context (pixelsToTileUnits : Tile -> number -> number -> number).
Context (painter : Painter) (source : Source) (layer : Layer).

Lemma drawLine_opaque (coords : list TileCoord) :
  isOpaquePass painter = true ->
  drawLine browser gl_mat2 pixelsToTileUnits painter source layer coords
  = ([], Normal tt).
Proof. intros H. unfold drawLine. rewrite H. reflexivity. Qed.

Lemma drawLine_no_width (coords : list TileCoord) :
  isOpaquePass painter = false ->
  le (line_width (paint layer)) 0%js = true ->
  drawLine browser gl_mat2 pixelsToTileUnits painter source layer coords
  = (prologue, Normal tt).
Proof. intros H1 H2. unfold drawLine. rewrite H1. cbn. rewrite H2. reflexivity. Qed.

Lemma drawLine_loop (coords : list TileCoord) :
  isOpaquePass painter = false ->
  le (line_width (paint layer)) 0%js = false ->
  drawLine browser gl_mat2 pixelsToTileUnits painter source layer coords
  = (prologue
     ++ trace (forEach (drawLineCoord browser pixelsToTileUnits painter source
                          layer (antialiasingMatrixOf gl_mat2 painter)) coords),
     result (forEach (drawLineCoord browser pixelsToTileUnits painter source
                        layer (antialiasingMatrixOf gl_mat2 painter)) coords)).
Proof. intros H1 H2. unfold drawLine. rewrite H1. cbn. rewrite H2. reflexivity. Qed.

(** Whatever it goes on to do, a non-opaque [drawLine] starts with the
    prologue. *)
Lemma drawLine_prologue (coords : list TileCoord) :
  isOpaquePass painter = false ->
  exists rest : list event,
    trace (drawLine browser gl_mat2 pixelsToTileUnits painter source layer coords)
    = prologue ++ rest.
Proof.
  intros H1. destruct (le (line_width (paint layer)) 0%js) eqn:H2.
  - rewrite (drawLine_no_width coords H1 H2). exists []. reflexivity.
  - rewrite (drawLine_loop coords H1 H2). eexists. reflexivity.
Qed.

(** A coordinate whose body completes made one draw call per buffer group
    it reaches. *)
Lemma drawLineCoord_drawEvents (m : mat2) (coord : TileCoord) :
  result (drawLineCoord browser pixelsToTileUnits painter source layer m coord)
  = Normal tt ->
  drawEvents
    (trace (drawLineCoord browser pixelsToTileUnits painter source layer m coord))
  = map groupDraw (groupsOf source layer coord).
Proof.
  unfold groupsOf.
  destruct (getBucket (getTile source coord) layer) as [bucket |] eqn:H1.
  2:{ rewrite (drawLineCoord_no_bucket _ _ _ _ _ _ _ H1). reflexivity. }
  destruct (bufferGroups_line bucket) as [groups |] eqn:H2.
  2:{ rewrite (drawLineCoord_no_groups _ _ _ _ _ _ _ _ H1 H2). reflexivity. }
  destruct (result (bindProgram browser pixelsToTileUnits painter source layer
                      (getTile source coord)
                      (paintAttributes_line bucket (layer_id layer))))
    as [[program |] | e] eqn:Hb.
  - rewrite (drawLineCoord_bound _ _ _ _ _ _ _ _ _ _ H1 H2 Hb).
    intros _. unfold trace at 1. cbn [fst default].
    rewrite !drawEvents_app, bindProgram_drawEvents, drawGroups_drawEvents.
    reflexivity.
  - rewrite (drawLineCoord_unbound _ _ _ _ _ _ _ _ _ H1 H2 Hb).
    intros H. discriminate H.
  - rewrite (drawLineCoord_bind_throws _ _ _ _ _ _ _ _ _ _ H1 H2 Hb).
    intros H. discriminate H.
Qed.

Lemma drawLoop_drawEvents (m : mat2) (coords : list TileCoord) :
  result (forEach (drawLineCoord browser pixelsToTileUnits painter source layer m)
            coords) = Normal tt ->
  drawEvents
    (trace (forEach (drawLineCoord browser pixelsToTileUnits painter source
                       layer m) coords))
  = map groupDraw (concat (map (groupsOf source layer) coords)).
Proof.
  intros H. destruct (forEach_Normal _ _ H) as [Hall ->].
  clear H. induction Hall as [| coord coords Hc _ IH]; [reflexivity |].
  cbn [map concat]. rewrite drawEvents_app, map_app, IH.
  rewrite (drawLineCoord_drawEvents _ _ Hc). reflexivity.
Qed.

(** With its two dashes in the atlas, a dashed layer is drawn to the end. *)
Lemma drawLine_dashed_completes (dasharray : Faded (list number))
    (posA posB : DashEntry) (coords : list TileCoord) :
  line_dasharray (paint layer) = Some dasharray ->
  getDash (lineAtlas painter) (from dasharray) (roundCap layer) = Some posA ->
  getDash (lineAtlas painter) (to dasharray) (roundCap layer) = Some posB ->
  result (drawLine browser gl_mat2 pixelsToTileUnits painter source layer coords)
  = Normal tt.
Proof.
  intros Hd HA HB.
  destruct (isOpaquePass painter) eqn:Hop.
  { rewrite (drawLine_opaque _ Hop). reflexivity. }
  destruct (le (line_width (paint layer)) 0%js) eqn:Hw.
  { rewrite (drawLine_no_width _ Hop Hw). reflexivity. }
  rewrite (drawLine_loop _ Hop Hw). unfold result at 1. cbn [snd].
  apply forEach_all_Normal. intros coord.
  destruct (getBucket (getTile source coord) layer) as [bucket |] eqn:H1.
  2:{ rewrite (drawLineCoord_no_bucket _ _ _ _ _ _ _ H1). reflexivity. }
  destruct (bufferGroups_line bucket) as [groups |] eqn:H2.
  2:{ rewrite (drawLineCoord_no_groups _ _ _ _ _ _ _ _ H1 H2). reflexivity. }
  erewrite drawLineCoord_bound; [reflexivity | exact H1 | exact H2 |].
  unfold bindProgram. rewrite Hd.
  rewrite (bindLineSDFPatternProgram_bound _ _ _ _ _ _ _ _ _ _ HA HB).
  reflexivity.
Qed.

(** A coordinate whose body throws made no draw call. *)
Lemma drawLineCoord_throw_drawEvents (m : mat2) (coord : TileCoord) (e : error) :
  result (drawLineCoord browser pixelsToTileUnits painter source layer m coord)
  = Throw e ->
  drawEvents
    (trace (drawLineCoord browser pixelsToTileUnits painter source layer m coord))
  = [].
Proof.
  destruct (getBucket (getTile source coord) layer) as [bucket |] eqn:H1.
  2:{ rewrite (drawLineCoord_no_bucket _ _ _ _ _ _ _ H1). discriminate. }
  destruct (bufferGroups_line bucket) as [groups |] eqn:H2.
  2:{ rewrite (drawLineCoord_no_groups _ _ _ _ _ _ _ _ H1 H2). discriminate. }
  destruct (result (bindProgram browser pixelsToTileUnits painter source layer
                      (getTile source coord)
                      (paintAttributes_line bucket (layer_id layer))))
    as [[program |] | e'] eqn:Hb.
  - rewrite (drawLineCoord_bound _ _ _ _ _ _ _ _ _ _ H1 H2 Hb). discriminate.
  - rewrite (drawLineCoord_unbound _ _ _ _ _ _ _ _ _ H1 H2 Hb).
    intros _. unfold trace at 1. cbn [fst].
    rewrite drawEvents_app, bindProgram_drawEvents. reflexivity.
  - rewrite (drawLineCoord_bind_throws _ _ _ _ _ _ _ _ _ _ H1 H2 Hb).
    intros _. unfold trace at 1. cbn [fst].
    apply bindProgram_drawEvents.
Qed.

(** However the loop ends, the buckets of the coordinates it got through
    were drawn group by group, and nothing else was. *)
Lemma drawLoop_drawEvents_prefix (m : mat2) (coords : list TileCoord) :
  exists n : nat,
    drawEvents
      (trace (forEach (drawLineCoord browser pixelsToTileUnits painter source
                         layer m) coords))
    = map groupDraw (concat (map (groupsOf source layer) (take n coords))).
Proof.
  induction coords as [| coord coords [n IH]]; [exists 0; reflexivity |].
  rewrite forEach_cons.
  destruct (result (drawLineCoord browser pixelsToTileUnits painter source layer
                      m coord)) as [[] | e] eqn:Hc.
  - exists (S n). rewrite (bind_Normal _ _ tt Hc).
    unfold trace at 1. cbn [fst take map concat].
    rewrite drawEvents_app, map_app.
    rewrite (drawLineCoord_drawEvents _ _ Hc).
    unfold trace in IH |- *. rewrite IH. reflexivity.
  - exists 0. rewrite (bind_Throw _ _ e Hc).
    unfold trace at 1. cbn [fst take map concat].
    apply (drawLineCoord_throw_drawEvents _ _ _ Hc).
Qed.

End DrawLineFacts.

(** * The claims *)

Section Claims.

Context (browser : Browser) (gl_mat2 : Mat2).
Context (pixelsToTileUnits : Tile -> number -> number -> number).

(** C1. A layer with a line pattern whose 'from' or 'to' image is missing
    from the sprite atlas: [bindLinePatternProgram] returns no program, but
    [drawLine] does not test for it. After the prologue it has asked for the
    'linepattern' program and bound the shared uniforms, and it then throws a
    [TypeError] reading [program.u_antialiasingmatrix]: the coordinate is not
    skipped, the frame's call is aborted, and no later coordinate is drawn. *)
Theorem drawLine_missing_pattern_throws
    (painter : Painter) (source : Source) (layer : Layer)
    (coord : TileCoord) (coords : list TileCoord)
    (bucket : Bucket) (groups : list BufferGroup) (image : Faded string) :
  isOpaquePass painter = false ->
  le (line_width (paint layer)) 0%js = false ->
  line_dasharray (paint layer) = None ->
  line_pattern (paint layer) = Some image ->
  getBucket (getTile source coord) layer = Some bucket ->
  bufferGroups_line bucket = Some groups ->
  getPosition (spriteAtlas painter) (from image) true = None
  \/ getPosition (spriteAtlas painter) (to image) true = None ->
  drawLine browser gl_mat2 pixelsToTileUnits painter source layer
    (coord :: coords)
  = ([SetDepthSublayer 0%js; DepthMask false; Enable STENCIL_TEST;
      UseProgram "linepattern"
        (defines (paintAttributes_line bucket (layer_id layer)))
        (vertexPragmas (paintAttributes_line bucket (layer_id layer)))
        (fragmentPragmas (paintAttributes_line bucket (layer_id layer)));
      SetUniforms (sharedUniforms browser pixelsToTileUnits painter layer
                     (getTile source coord))],
     Throw TypeError).
Proof.
  intros Hop Hw Hd Hp Hb Hg Hmiss.
  rewrite (drawLine_loop _ _ _ _ _ _ _ Hop Hw).
  rewrite forEach_cons.
  assert (Hbind :
    bindProgram browser pixelsToTileUnits painter source layer
      (getTile source coord) (paintAttributes_line bucket (layer_id layer))
    = ([UseProgram "linepattern"
          (defines (paintAttributes_line bucket (layer_id layer)))
          (vertexPragmas (paintAttributes_line bucket (layer_id layer)))
          (fragmentPragmas (paintAttributes_line bucket (layer_id layer)))],
       Normal None)).
  { unfold bindProgram. rewrite Hd, Hp.
    apply bindLinePatternProgram_missing, Hmiss. }
  assert (Hcoord := drawLineCoord_unbound browser pixelsToTileUnits painter
    source layer (antialiasingMatrixOf gl_mat2 painter) coord bucket groups
    Hb Hg (f_equal snd Hbind)).
  rewrite Hbind in Hcoord.
  rewrite (bind_Throw _ _ TypeError (f_equal snd Hcoord)).
  rewrite Hcoord. reflexivity.
Qed.

(** C2. The program [drawLine] binds for a layer is the one the table of
    the specification names: a set dash array selects 'linesdfpattern'
    whether or not a pattern is set too, a pattern without a dash array
    selects 'linepattern', neither selects 'line'. Exactly one program is
    asked of the painter, and a program that is returned bears that name. *)
Theorem bindProgram_selects_one_variant
    (painter : Painter) (source : Source) (layer : Layer) (tile : Tile)
    (programOptions : ProgramOptions) :
  programsUsed
    (trace (bindProgram browser pixelsToTileUnits painter source layer tile
              programOptions))
  = [programNameOf (specVariant (paint layer))]
  /\ match result (bindProgram browser pixelsToTileUnits painter source layer
                     tile programOptions) with
     | Normal (Some program) =>
         program_name program = programNameOf (specVariant (paint layer))
     | _ => True
     end.
Proof.
  split.
  - rewrite bindProgram_programsUsed. unfold specVariant.
    destruct (line_dasharray (paint layer)), (line_pattern (paint layer));
      reflexivity.
  - destruct (result (bindProgram browser pixelsToTileUnits painter source
                        layer tile programOptions))
      as [[program |] | e] eqn:Hr; [| exact I | exact I].
    rewrite (bindProgram_result_name _ _ _ _ _ _ _ _ Hr). unfold specVariant.
    destruct (line_dasharray (paint layer)), (line_pattern (paint layer));
      reflexivity.
Qed.

(** C8. [drawLine] issues no draw call in the opaque pass, nor for a line
    width that is not positive. In every trace it produces, each indexed
    triangle draw call comes after [depthMask(false)] and after the stencil
    test was enabled. When it completes on a layer of positive width outside
    the opaque pass, its draw calls are, in order, one
    [drawElements(TRIANGLES, elementBuffer.length * 3, UNSIGNED_SHORT, 0)]
    for each buffer group of the bucket of each coordinate; and however it
    ends, its draw calls are those of the buckets of the first [n]
    coordinates, each group drawn once, for some [n]. *)
Theorem drawLine_draw_calls
    (painter : Painter) (source : Source) (layer : Layer)
    (coords : list TileCoord) :
  let run := drawLine browser gl_mat2 pixelsToTileUnits painter source layer
               coords in
  (isOpaquePass painter = true \/ le (line_width (paint layer)) 0%js = true ->
   drawEvents (trace run) = [])
  /\ (forall (before after : list event) (e : event),
        trace run = before ++ e :: after -> isDrawElements e = true ->
        DepthMask false ∈ before /\ Enable STENCIL_TEST ∈ before)
  /\ (isOpaquePass painter = false ->
      le (line_width (paint layer)) 0%js = false ->
      result run = Normal tt ->
      drawEvents (trace run)
      = map groupDraw (concat (map (groupsOf source layer) coords)))
  /\ (exists n : nat,
        drawEvents (trace run)
        = map groupDraw (concat (map (groupsOf source layer) (take n coords)))).
Proof.
  intros run. subst run. split; [| split; [| split]].
  - destruct (isOpaquePass painter) eqn:Hop.
    + intros _. rewrite (drawLine_opaque _ _ _ _ _ _ _ Hop). reflexivity.
    + intros [H | Hw]; [discriminate H |].
      rewrite (drawLine_no_width _ _ _ _ _ _ _ Hop Hw). reflexivity.
  - intros before after e Htr He.
    destruct (isOpaquePass painter) eqn:Hop.
    + rewrite (drawLine_opaque _ _ _ _ _ _ _ Hop) in Htr.
      destruct before; discriminate Htr.
    + destruct (drawLine_prologue browser gl_mat2 pixelsToTileUnits painter
                  source layer coords Hop) as [rest Hrest].
      rewrite Hrest in Htr. cbn [app] in Htr.
      destruct before as [| e0 [| e1 [| e2 before]]]; cbn [app] in Htr;
        inversion Htr; subst; try discriminate He.
      split; [apply list_elem_of_further, list_elem_of_here |].
      apply list_elem_of_further, list_elem_of_further, list_elem_of_here.
  - intros Hop Hw Hres.
    rewrite (drawLine_loop _ _ _ _ _ _ _ Hop Hw) in Hres |- *.
    unfold trace at 1. cbn [fst]. rewrite drawEvents_app.
    unfold result in Hres. cbn [snd] in Hres.
    rewrite (drawLoop_drawEvents _ _ _ _ _ _ _ Hres). reflexivity.
  - destruct (isOpaquePass painter) eqn:Hop.
    { exists 0. rewrite (drawLine_opaque _ _ _ _ _ _ _ Hop). reflexivity. }
    destruct (le (line_width (paint layer)) 0%js) eqn:Hw.
    { exists 0. rewrite (drawLine_no_width _ _ _ _ _ _ _ Hop Hw). reflexivity. }
    destruct (drawLoop_drawEvents_prefix browser pixelsToTileUnits painter
                source layer (antialiasingMatrixOf gl_mat2 painter) coords)
      as [n Hn].
    exists n. rewrite (drawLine_loop _ _ _ _ _ _ _ Hop Hw).
    unfold trace at 1. cbn [fst]. rewrite drawEvents_app, Hn. reflexivity.
Qed.

(** C9. The two skips of [drawLine] differ in what they leave behind. In the
    opaque pass it returns having called nothing. For a width that is not
    positive it returns after [setDepthSublayer(0)], [depthMask(false)] and
    [enable(STENCIL_TEST)], and those three calls are all it made: the state
    is changed although nothing is drawn. *)
Theorem drawLine_skips_differ
    (painter : Painter) (source : Source) (layer : Layer)
    (coords : list TileCoord) :
  (isOpaquePass painter = true ->
   drawLine browser gl_mat2 pixelsToTileUnits painter source layer coords
   = ([], Normal tt))
  /\ (isOpaquePass painter = false ->
      le (line_width (paint layer)) 0%js = true ->
      drawLine browser gl_mat2 pixelsToTileUnits painter source layer coords
      = ([SetDepthSublayer 0%js; DepthMask false; Enable STENCIL_TEST],
         Normal tt)).
Proof.
  split.
  - apply drawLine_opaque.
  - apply drawLine_no_width.
Qed.

(** C10. The dashed binder has no test for a missing dash. When the atlas
    returns an entry for the 'from' and for the 'to' dash, it completes and
    returns the 'linesdfpattern' program, and when either entry is missing it
    throws a [TypeError] right after [useProgram]. With both entries in the
    atlas, [drawLine] on a layer with that dash array completes, whatever
    the coordinates. The patterned binder, which tests its two atlas entries,
    completes whatever the sprite atlas returns. *)
Theorem bindLineSDFPatternProgram_total_iff_dashes
    (painter : Painter) (source : Source) (layer : Layer) (tile : Tile)
    (programOptions : ProgramOptions) (dasharray : Faded (list number))
    (image : Faded string) :
  let round := roundCap layer in
  let run := bindLineSDFPatternProgram browser pixelsToTileUnits painter source
               layer tile programOptions dasharray in
  ((exists posA posB : DashEntry,
      getDash (lineAtlas painter) (from dasharray) round = Some posA
      /\ getDash (lineAtlas painter) (to dasharray) round = Some posB)
   <-> exists program : Program,
         result run = Normal program
         /\ program_name program = "linesdfpattern")
  /\ (getDash (lineAtlas painter) (from dasharray) round = None
      \/ getDash (lineAtlas painter) (to dasharray) round = None ->
      run = ([UseProgram "linesdfpattern" (defines programOptions)
                (vertexPragmas programOptions) (fragmentPragmas programOptions)],
             Throw TypeError))
  /\ (forall coords : list TileCoord,
        line_dasharray (paint layer) = Some dasharray ->
        (exists posA posB : DashEntry,
           getDash (lineAtlas painter) (from dasharray) round = Some posA
           /\ getDash (lineAtlas painter) (to dasharray) round = Some posB) ->
        result (drawLine browser gl_mat2 pixelsToTileUnits painter source layer
                  coords) = Normal tt)
  /\ exists program : option Program,
       result (bindLinePatternProgram pixelsToTileUnits painter source layer
                 tile programOptions image) = Normal program.
Proof.
  intros round run. subst round run. split; [| split; [| split]].
  - split.
    + intros (posA & posB & HA & HB).
      rewrite (bindLineSDFPatternProgram_bound _ _ _ _ _ _ _ _ _ _ HA HB).
      eexists. split; reflexivity.
    + intros (program & Hr & _).
      destruct (getDash (lineAtlas painter) (from dasharray) _) as [posA |] eqn:HA.
      * destruct (getDash (lineAtlas painter) (to dasharray) _) as [posB |] eqn:HB.
        -- exists posA, posB. split; reflexivity.
        -- rewrite (bindLineSDFPatternProgram_missing _ _ _ _ _ _ _ _) in Hr
             by (right; exact HB).
           discriminate Hr.
      * rewrite (bindLineSDFPatternProgram_missing _ _ _ _ _ _ _ _) in Hr
          by (left; exact HA).
        discriminate Hr.
  - apply bindLineSDFPatternProgram_missing.
  - intros coords Hd (posA & posB & HA & HB).
    exact (drawLine_dashed_completes browser gl_mat2 pixelsToTileUnits painter
             source layer dasharray posA posB coords Hd HA HB).
  - unfold bindLinePatternProgram.
    destruct (getPosition (spriteAtlas painter) (from image) true) as [a |];
      destruct (getPosition (spriteAtlas painter) (to image) true) as [b |];
      eexists; reflexivity.
Qed.


(** C5. Whatever program was bound for the layer, the next call of the loop
    body is [setUniforms] with the shared uniforms, in which [u_blur] is the
    layer's line-blur plus one device pixel, [1 / devicePixelRatio], and
    [u_antialiasing] is half a device pixel, [(1 / devicePixelRatio) / 2]. *)
Theorem shared_uniforms_blur_antialiasing
    (painter : Painter) (source : Source) (layer : Layer) (m : mat2)
    (coord : TileCoord) (bucket : Bucket) (groups : list BufferGroup)
    (program : option Program) :
  let bound := bindProgram browser pixelsToTileUnits painter source layer
                 (getTile source coord)
                 (paintAttributes_line bucket (layer_id layer)) in
  let shared := sharedUniforms browser pixelsToTileUnits painter layer
                  (getTile source coord) in
  getBucket (getTile source coord) layer = Some bucket ->
  bufferGroups_line bucket = Some groups ->
  result bound = Normal program ->
  (exists rest : list event,
     trace (drawLineCoord browser pixelsToTileUnits painter source layer m coord)
     = trace bound ++ SetUniforms shared :: rest)
  /\ shared !! "u_blur"
     = Some (UNum (line_blur (paint layer) + 1 / devicePixelRatio browser)%js)
  /\ shared !! "u_antialiasing"
     = Some (UNum (1 / devicePixelRatio browser / 2)%js).
Proof.
  intros bound shared Hb Hg Hr. subst bound shared.
  split; [| split; reflexivity].
  destruct program as [program |].
  - rewrite (drawLineCoord_bound _ _ _ _ _ _ _ _ _ _ Hb Hg Hr).
    eexists. reflexivity.
  - rewrite (drawLineCoord_unbound _ _ _ _ _ _ _ _ _ Hb Hg Hr).
    exists []. reflexivity.
Qed.

(** C6. When both images are in the sprite atlas, the patterned binder
    leaves [u_pattern_size_a] at
    [[pixelsToTileUnits(tile, imagePosA.size[0] * image.fromScale, tileZoom),
      imagePosB.size[1]]] and [u_pattern_size_b] at
    [[pixelsToTileUnits(tile, imagePosB.size[0] * image.toScale, tileZoom),
      imagePosB.size[1]]]: the second component is the height of image B in
    both. *)
Theorem pattern_size_uniforms
    (painter : Painter) (source : Source) (layer : Layer) (tile : Tile)
    (programOptions : ProgramOptions) (image : Faded string)
    (imagePosA imagePosB : ImagePos) :
  let tr := trace (bindLinePatternProgram pixelsToTileUnits painter source
                     layer tile programOptions image) in
  getPosition (spriteAtlas painter) (from image) true = Some imagePosA ->
  getPosition (spriteAtlas painter) (to image) true = Some imagePosB ->
  uniformAfter "u_pattern_size_a" tr None
  = Some (UArr [pixelsToTileUnits tile ((size imagePosA).1 * fromScale image)%js
                  (tileZoom (transform painter));
                (size imagePosB).2])
  /\ uniformAfter "u_pattern_size_b" tr None
     = Some (UArr [pixelsToTileUnits tile ((size imagePosB).1 * toScale image)%js
                     (tileZoom (transform painter));
                   (size imagePosB).2]).
Proof.
  intros tr HA HB. subst tr.
  rewrite (bindLinePatternProgram_bound _ _ _ _ _ _ _ _ _ HA HB).
  split; reflexivity.
Qed.

(** C7. When both dashes are in the dash atlas, the dashed binder leaves
    [u_sdfgamma] at
    [atlasWidth / (min(widthA, widthB) * 256 * devicePixelRatio) / 2], with
    [widthA = posA.width * dasharray.fromScale] and
    [widthB = posB.width * dasharray.toScale]. *)
Theorem sdfgamma_uniform
    (painter : Painter) (source : Source) (layer : Layer) (tile : Tile)
    (programOptions : ProgramOptions) (dasharray : Faded (list number))
    (posA posB : DashEntry) :
  let round := roundCap layer in
  let widthA := (dash_width posA * fromScale dasharray)%js in
  let widthB := (dash_width posB * toScale dasharray)%js in
  getDash (lineAtlas painter) (from dasharray) round = Some posA ->
  getDash (lineAtlas painter) (to dasharray) round = Some posB ->
  uniformAfter "u_sdfgamma"
    (trace (bindLineSDFPatternProgram browser pixelsToTileUnits painter source
              layer tile programOptions dasharray)) None
  = Some (UNum (atlas_width (lineAtlas painter)
                / (min widthA widthB * 256 * devicePixelRatio browser) / 2)%js).
Proof.
  intros round widthA widthB HA HB. subst round widthA widthB.
  rewrite (bindLineSDFPatternProgram_bound _ _ _ _ _ _ _ _ _ _ HA HB).
  reflexivity.
Qed.

End Claims.

(** ** The cache of [createLayerFamilies] *)

Section CacheClaims.

Context {StyleLayer LayerFamilies : Type}.
Context (set_layers : list StyleLayer -> LayerFamilies).

Lemma createLayerFamilies_hit (layers : LayerArray StyleLayer)
    (g : Globals LayerFamilies) :
  createLayerFamiliesCacheKey g = Some (array_ref layers) ->
  createLayerFamilies set_layers layers g
  = (createLayerFamiliesCacheValue g, g).
Proof.
  intros H. unfold createLayerFamilies.
  rewrite bool_decide_eq_false_2; [reflexivity |].
  intros Hne. apply Hne. symmetry. exact H.
Qed.

Lemma createLayerFamilies_miss (layers : LayerArray StyleLayer)
    (g : Globals LayerFamilies) :
  createLayerFamiliesCacheKey g <> Some (array_ref layers) ->
  createLayerFamilies set_layers layers g
  = (Some {| families_ref := nextObject g;
             families_value := set_layers (array_elems layers) |},
     {| createLayerFamiliesCacheKey := Some (array_ref layers);
        createLayerFamiliesCacheValue :=
          Some {| families_ref := nextObject g;
                  families_value := set_layers (array_elems layers) |};
        nextObject := Pos.succ (nextObject g);
        workersCreated := S (workersCreated g) |}).
Proof.
  intros H. unfold createLayerFamilies.
  rewrite bool_decide_eq_true_2; [reflexivity |].
  intros Heq. apply H. symmetry. exact Heq.
Qed.

(** After any call the key is the array that was passed. *)
Lemma createLayerFamilies_key (layers : LayerArray StyleLayer)
    (g : Globals LayerFamilies) :
  createLayerFamiliesCacheKey (createLayerFamilies set_layers layers g).2
  = Some (array_ref layers).
Proof.
  destruct (decide (createLayerFamiliesCacheKey g = Some (array_ref layers)))
    as [H | H].
  - rewrite (createLayerFamilies_hit _ _ H). exact H.
  - rewrite (createLayerFamilies_miss _ _ H). reflexivity.
Qed.

Lemma createLayerFamilies_returns_cache (layers : LayerArray StyleLayer)
    (g : Globals LayerFamilies) :
  (createLayerFamilies set_layers layers g).1
  = createLayerFamiliesCacheValue (createLayerFamilies set_layers layers g).2.
Proof. reflexivity. Qed.

Lemma createLayerFamilies_allocated (layers : LayerArray StyleLayer)
    (g : Globals LayerFamilies) :
  cacheAllocated g ->
  cacheAllocated (createLayerFamilies set_layers layers g).2.
Proof.
  intros Hg.
  destruct (decide (createLayerFamiliesCacheKey g = Some (array_ref layers)))
    as [H | H].
  - rewrite (createLayerFamilies_hit _ _ H). exact Hg.
  - rewrite (createLayerFamilies_miss _ _ H). unfold cacheAllocated. simpl. lia.
Qed.

(** C4. A second call of [createLayerFamilies] with the same array returns
    the object the first call returned and changes nothing: no worker is
    constructed. A call with another array of the same elements constructs a
    worker, returns its families, a new object, and leaves them in the single
    slot under the new key, so that the first array misses again
    afterwards. *)
Theorem createLayerFamilies_single_slot
    (layers other : LayerArray StyleLayer) (g : Globals LayerFamilies) :
  let first := createLayerFamilies set_layers layers g in
  let second := createLayerFamilies set_layers layers first.2 in
  let third := createLayerFamilies set_layers other first.2 in
  (second.1 = first.1 /\ second.2 = first.2)
  /\ (array_ref other <> array_ref layers ->
      array_elems other = array_elems layers ->
      third.1 = Some {| families_ref := nextObject first.2;
                        families_value := set_layers (array_elems layers) |}
      /\ workersCreated third.2 = S (workersCreated first.2)
      /\ createLayerFamiliesCacheKey third.2 = Some (array_ref other)
      /\ createLayerFamiliesCacheValue third.2 = third.1
      /\ (cacheAllocated g ->
          forall f1 f3 : FamiliesObject LayerFamilies,
            first.1 = Some f1 -> third.1 = Some f3 ->
            families_ref f3 <> families_ref f1)
      /\ workersCreated (createLayerFamilies set_layers layers third.2).2
         = S (workersCreated third.2)).
Proof.
  intros first second third. subst second third.
  pose proof (createLayerFamilies_key layers g) as Hkey.
  pose proof (createLayerFamilies_returns_cache layers g) as Hret.
  pose proof (createLayerFamilies_allocated layers g) as Hal.
  fold first in Hkey, Hret, Hal. clearbody first.
  split.
  - rewrite (createLayerFamilies_hit _ _ Hkey). split; [symmetry; exact Hret | reflexivity].
  - intros Hne Heq.
    assert (Hmiss : createLayerFamiliesCacheKey first.2 <> Some (array_ref other)).
    { rewrite Hkey. intros H. injection H as H. apply Hne. symmetry. exact H. }
    rewrite (createLayerFamilies_miss _ _ Hmiss). cbn [fst snd].
    rewrite Heq. repeat split.
    + intros Hg f1 f3 H1 H3. injection H3 as <-. cbn [families_ref].
      specialize (Hal Hg). unfold cacheAllocated in Hal.
      rewrite <- Hret, H1 in Hal. lia.
    + rewrite createLayerFamilies_miss; [reflexivity |].
      cbn. intros H. injection H as H. apply Hne. exact H.
Qed.

End CacheClaims.

(** ** The claims on the scene *)

Section OnTheScene.

Import Scene.

Lemma two_is_positive : le 2%js 0%js = false.
Proof. apply le_Num_false. lra. Qed.

Lemma zero_is_not_positive : le 0%js 0%js = true.
Proof. apply le_Num_true. lra. Qed.

(** The pattern layer while its images load: the call is aborted on the
    first of the two coordinates. *)
Lemma drawLine_missing_pattern_throws_witness :
  drawLine browser1 glMatrix sixteenUnits loading source1 patternLayer
    [coord0; coord1]
  = ([SetDepthSublayer 0%js; DepthMask false; Enable STENCIL_TEST;
      UseProgram "linepattern" [] ∅ ∅;
      SetUniforms (sharedUniforms browser1 sixteenUnits loading patternLayer tile1)],
     Throw TypeError).
Proof.
  apply (drawLine_missing_pattern_throws browser1 glMatrix sixteenUnits loading
           source1 patternLayer coord0 [coord1] bucket2
           [group "g0" 2; group "g1" 5] images).
  - reflexivity.
  - exact two_is_positive.
  - reflexivity.
  - reflexivity.
  - reflexivity.
  - reflexivity.
  - left. reflexivity.
Defined.



(** With one device pixel to the pixel and no blur, [u_antialiasing] is the
    half pixel and [u_blur] is not: it is 1. *)
Lemma u_blur_half_pixel_counterexample :
  sharedUniforms browser1 sixteenUnits ready solidLayer tile1 !! "u_antialiasing"
  = Some (UNum (1 / devicePixelRatio browser1 / 2)%js)
  /\ sharedUniforms browser1 sixteenUnits ready solidLayer tile1 !! "u_blur"
     <> Some (UNum (line_blur (paint solidLayer)
                    + 1 / devicePixelRatio browser1 / 2)%js).
Proof.
  split; [reflexivity |].
  change (Some (UNum (0 + 1 / 1)%js) <> Some (UNum (0 + 1 / 1 / 2)%js)).
  rewrite (div_Num 1 1) by lra. rewrite (div_Num (1 / 1) 2) by lra.
  cbn [add]. intros H. injection H as H. lra.
Qed.

Lemma shared_uniforms_blur_antialiasing_witness :
  (exists rest : list event,
     trace (drawLineCoord browser1 sixteenUnits ready source1 dashedLayer
              (antialiasingMatrixOf glMatrix ready) coord0)
     = trace (bindProgram browser1 sixteenUnits ready source1 dashedLayer
                tile1 noOptions)
       ++ SetUniforms (sharedUniforms browser1 sixteenUnits ready dashedLayer
                         tile1) :: rest)
  /\ sharedUniforms browser1 sixteenUnits ready dashedLayer tile1 !! "u_blur"
     = Some (UNum (0 + 1 / 1)%js)
  /\ sharedUniforms browser1 sixteenUnits ready dashedLayer tile1
       !! "u_antialiasing"
     = Some (UNum (1 / 1 / 2)%js).
Proof.
  apply (shared_uniforms_blur_antialiasing browser1 sixteenUnits ready source1
           dashedLayer (antialiasingMatrixOf glMatrix ready) coord0 bucket2
           [group "g0" 2; group "g1" 5]
           (Some {| program_name := "linesdfpattern"; program_defines := [];
                    program_vertexPragmas := ∅;
                    program_fragmentPragmas := ∅ |})).
  - reflexivity.
  - reflexivity.
  - reflexivity.
Defined.

(** The two stripes: A is 2 by 4 and B is 4 by 256, and both sizes end in
    256. *)
Lemma pattern_size_uniforms_witness :
  uniformAfter "u_pattern_size_a"
    (trace (bindLinePatternProgram sixteenUnits ready source1 patternLayer
              tile1 noOptions images)) None
  = Some (UArr [sixteenUnits tile1 (2 * 1)%js 0%js; 256%js])
  /\ uniformAfter "u_pattern_size_b"
       (trace (bindLinePatternProgram sixteenUnits ready source1 patternLayer
                 tile1 noOptions images)) None
     = Some (UArr [sixteenUnits tile1 (4 * 2)%js 0%js; 256%js]).
Proof.
  apply (pattern_size_uniforms sixteenUnits ready source1 patternLayer tile1
           noOptions images (imageOf 2 4)%js (imageOf 4 256)%js).
  - reflexivity.
  - reflexivity.
Defined.

Lemma sdfgamma_uniform_witness :
  uniformAfter "u_sdfgamma"
    (trace (bindLineSDFPatternProgram browser1 sixteenUnits ready source1
              dashedLayer tile1 noOptions dashes)) None
  = Some (UNum (256 / (min (2 * 1) (4 * 2) * 256 * 1) / 2)%js).
Proof.
  apply (sdfgamma_uniform browser1 sixteenUnits ready source1 dashedLayer tile1
           noOptions dashes (dashOf 2%js) (dashOf 4%js)).
  - reflexivity.
  - reflexivity.
Defined.

Lemma solid_run_completes :
  result (drawLine browser1 glMatrix sixteenUnits ready source1 solidLayer
            [coord0; coord1]) = Normal tt.
Proof.
  rewrite (drawLine_loop browser1 glMatrix sixteenUnits ready source1 solidLayer
             [coord0; coord1] eq_refl two_is_positive).
  reflexivity.
Qed.

(** Two coordinates, each with the bucket of two groups: four draw calls, and
    none in the opaque pass. *)
Lemma drawLine_draw_calls_witness :
  drawEvents
    (trace (drawLine browser1 glMatrix sixteenUnits ready source1 solidLayer
              [coord0; coord1]))
  = [DrawElements TRIANGLES 6 UNSIGNED_SHORT 0;
     DrawElements TRIANGLES 15 UNSIGNED_SHORT 0;
     DrawElements TRIANGLES 6 UNSIGNED_SHORT 0;
     DrawElements TRIANGLES 15 UNSIGNED_SHORT 0]
  /\ drawEvents
       (trace (drawLine browser1 glMatrix sixteenUnits opaque source1 solidLayer
                 [coord0; coord1])) = []
  /\ drawEvents
       (trace (drawLine browser1 glMatrix sixteenUnits ready source1 thinLayer
                 [coord0; coord1])) = [].
Proof.
  split; [| split].
  - exact (proj1 (proj2 (proj2
      (drawLine_draw_calls browser1 glMatrix sixteenUnits ready source1
         solidLayer [coord0; coord1])))
      eq_refl two_is_positive solid_run_completes).
  - exact (proj1
      (drawLine_draw_calls browser1 glMatrix sixteenUnits opaque source1
         solidLayer [coord0; coord1])
      (or_introl eq_refl)).
  - exact (proj1
      (drawLine_draw_calls browser1 glMatrix sixteenUnits ready source1
         thinLayer [coord0; coord1])
      (or_intror zero_is_not_positive)).
Defined.

Lemma drawLine_skips_differ_witness :
  drawLine browser1 glMatrix sixteenUnits opaque source1 thinLayer [coord0]
  = ([], Normal tt)
  /\ drawLine browser1 glMatrix sixteenUnits ready source1 thinLayer [coord0]
     = ([SetDepthSublayer 0%js; DepthMask false; Enable STENCIL_TEST],
        Normal tt).
Proof.
  split.
  - exact (proj1
      (drawLine_skips_differ browser1 glMatrix sixteenUnits opaque source1
         thinLayer [coord0]) eq_refl).
  - exact (proj2
      (drawLine_skips_differ browser1 glMatrix sixteenUnits ready source1
         thinLayer [coord0]) eq_refl zero_is_not_positive).
Defined.

(** The dashed layer with a dash atlas that has room, and with one that has
    none. *)
Lemma bindLineSDFPatternProgram_total_iff_dashes_witness :
  (exists program : Program,
     result (bindLineSDFPatternProgram browser1 sixteenUnits ready source1
               dashedLayer tile1 noOptions dashes) = Normal program
     /\ program_name program = "linesdfpattern")
  /\ bindLineSDFPatternProgram browser1 sixteenUnits spaceless source1
       dashedLayer tile1 noOptions dashes
     = ([UseProgram "linesdfpattern" [] ∅ ∅], Throw TypeError).
Proof.
  split.
  - apply (proj1 (proj1
      (bindLineSDFPatternProgram_total_iff_dashes browser1 glMatrix
         sixteenUnits ready source1 dashedLayer tile1 noOptions dashes
         images))).
    exists (dashOf 2%js), (dashOf 4%js).
    split; reflexivity.
  - apply (proj1 (proj2
      (bindLineSDFPatternProgram_total_iff_dashes browser1 glMatrix
         sixteenUnits spaceless source1 dashedLayer tile1 noOptions dashes
         images))).
    left. reflexivity.
Defined.

(** From the initial globals: [layersA] twice, then [layersB]. *)
Lemma createLayerFamilies_single_slot_witness :
  createLayerFamilies ownFamilies layersA
    (createLayerFamilies ownFamilies layersA (initialGlobals 1)).2
  = createLayerFamilies ownFamilies layersA (initialGlobals 1)
  /\ (createLayerFamilies ownFamilies layersB
        (createLayerFamilies ownFamilies layersA (initialGlobals 1)).2).1
     = Some {| families_ref := 2;
               families_value := [["road"]; ["water"]] |}
  /\ workersCreated
       (createLayerFamilies ownFamilies layersB
          (createLayerFamilies ownFamilies layersA (initialGlobals 1)).2).2
     = 2.
Proof.
  pose proof (createLayerFamilies_single_slot ownFamilies layersA layersB
                (initialGlobals 1)) as [[H1 H2] H3].
  destruct H3 as (H4 & H5 & _); [discriminate | reflexivity |].
  split; [| split].
  - apply injective_projections; assumption.
  - exact H4.
  - exact H5.
Defined.

End OnTheScene.

(** * More of the two files *)

(** ** How a loop ends *)

Lemma bind_ret_l {A B} (a : A) (k : A -> M B) : bind (ret a) k = k a.
Proof. unfold bind, ret. simpl. destruct (k a). reflexivity. Qed.

(** A loop either runs all its bodies, or stops at the first one that
    throws. *)
Lemma forEach_cases {A} (body : A -> M unit) (l : list A) :
  (Forall (fun a => result (body a) = Normal tt) l
   /\ forEach body l = (concat (map (fun a => trace (body a)) l), Normal tt))
  \/ (exists (l1 : list A) (a : A) (l2 : list A) (e : error),
        l = l1 ++ a :: l2
        /\ Forall (fun a => result (body a) = Normal tt) l1
        /\ result (body a) = Throw e
        /\ forEach body l
           = (concat (map (fun a => trace (body a)) l1) ++ trace (body a),
              Throw e)).
Proof.
  induction l as [| a l IH].
  - left. split; [constructor | reflexivity].
  - rewrite forEach_cons.
    destruct (result (body a)) as [[] | e] eqn:Ha.
    + rewrite (bind_Normal _ _ tt Ha).
      destruct IH as [[Hall Hl] | (l1 & b & l2 & e & -> & Hall & Hb & Hl)].
      * left. split; [constructor; assumption |].
        unfold trace at 2, result. rewrite Hl. reflexivity.
      * right. exists (a :: l1), b, l2, e.
        split; [reflexivity |]. split; [constructor; assumption |].
        split; [exact Hb |].
        unfold trace at 2, result. rewrite Hl. cbn [fst snd map concat].
        rewrite app_assoc. reflexivity.
    + right. exists [], a, l, e.
      split; [reflexivity |]. split; [constructor |]. split; [exact Ha |].
      rewrite (bind_Throw _ _ e Ha). reflexivity.
Qed.

(** ** Coordinates reached and assets ready *)

Section Coordinates.

Context (browser : Browser) (gl_mat2 : Mat2).
Context (pixelsToTileUnits : Tile -> number -> number -> number).
Context (painter : Painter) (source : Source) (layer : Layer).

Lemma reached_inv (coord : TileCoord) :
  reached source layer coord = true ->
  exists (bucket : Bucket) (groups : list BufferGroup),
    getBucket (getTile source coord) layer = Some bucket
    /\ bufferGroups_line bucket = Some groups.
Proof.
  unfold reached.
  destruct (getBucket (getTile source coord) layer) as [bucket |];
    [| discriminate].
  destruct (bufferGroups_line bucket) as [groups |] eqn:Hg; [| discriminate].
  intros _. exists bucket, groups. split; [reflexivity | exact Hg].
Qed.

Lemma drawLineCoord_unreached (m : mat2) (coord : TileCoord) :
  reached source layer coord = false ->
  drawLineCoord browser pixelsToTileUnits painter source layer m coord = ret tt.
Proof.
  unfold reached, drawLineCoord.
  destruct (getBucket (getTile source coord) layer) as [bucket |];
    [| reflexivity].
  destruct (bufferGroups_line bucket) as [groups |]; [discriminate |].
  reflexivity.
Qed.

Lemma groupsOf_unreached (coord : TileCoord) :
  reached source layer coord = false -> groupsOf source layer coord = [].
Proof.
  unfold reached, groupsOf.
  destruct (getBucket (getTile source coord) layer) as [bucket |];
    [| reflexivity].
  destruct (bufferGroups_line bucket) as [groups |]; [discriminate |].
  reflexivity.
Qed.

(** With the assets ready the binder completes with the program of the
    layer's variant. *)
Lemma bindProgram_ready (tile : Tile) (programOptions : ProgramOptions) :
  assetsReady painter layer = true ->
  result (bindProgram browser pixelsToTileUnits painter source layer tile
            programOptions)
  = Normal (Some (programOf programOptions
                    (programNameOf (specVariant (paint layer))))).
Proof.
  unfold assetsReady, bindProgram, specVariant.
  destruct (line_dasharray (paint layer)) as [dasharray |].
  - destruct (getDash (lineAtlas painter) (from dasharray) (roundCap layer))
      as [posA |] eqn:HA; [| discriminate].
    destruct (getDash (lineAtlas painter) (to dasharray) (roundCap layer))
      as [posB |] eqn:HB; [| discriminate].
    intros _.
    rewrite (bindLineSDFPatternProgram_bound _ _ _ _ _ _ _ _ _ _ HA HB).
    reflexivity.
  - destruct (line_pattern (paint layer)) as [image |]; [| reflexivity].
    destruct (getPosition (spriteAtlas painter) (from image) true)
      as [a |] eqn:HA; [| discriminate].
    destruct (getPosition (spriteAtlas painter) (to image) true)
      as [b |] eqn:HB; [| discriminate].
    intros _. rewrite (bindLinePatternProgram_bound _ _ _ _ _ _ _ _ _ HA HB).
    reflexivity.
Qed.

(** Without them it asks for the program and then either throws (dashes) or
    returns nothing (images). *)
Lemma bindProgram_not_ready (tile : Tile) (programOptions : ProgramOptions) :
  assetsReady painter layer = false ->
  bindProgram browser pixelsToTileUnits painter source layer tile programOptions
  = ([useEvent programOptions (programNameOf (specVariant (paint layer)))],
     match line_dasharray (paint layer) with
     | Some _ => Throw TypeError
     | None => Normal None
     end).
Proof.
  unfold assetsReady, bindProgram, specVariant.
  destruct (line_dasharray (paint layer)) as [dasharray |].
  - intros H. rewrite bindLineSDFPatternProgram_missing; [reflexivity |].
    destruct (getDash (lineAtlas painter) (from dasharray) (roundCap layer));
      [| left; reflexivity].
    destruct (getDash (lineAtlas painter) (to dasharray) (roundCap layer));
      [discriminate H | right; reflexivity].
  - destruct (line_pattern (paint layer)) as [image |]; [| discriminate].
    intros H. apply bindLinePatternProgram_missing.
    destruct (getPosition (spriteAtlas painter) (from image) true);
      [| left; reflexivity].
    destruct (getPosition (spriteAtlas painter) (to image) true);
      [discriminate H | right; reflexivity].
Qed.

(** The events of a reached coordinate whose program could not be bound. *)
Lemma drawLineCoord_not_ready (m : mat2) (coord : TileCoord) (bucket : Bucket) :
  assetsReady painter layer = false ->
  reached source layer coord = true ->
  getBucket (getTile source coord) layer = Some bucket ->
  drawLineCoord browser pixelsToTileUnits painter source layer m coord
  = (useEvent (paintAttributes_line bucket (layer_id layer))
       (programNameOf (specVariant (paint layer)))
     :: match line_dasharray (paint layer) with
        | Some _ => []
        | None => [SetUniforms (sharedUniforms browser pixelsToTileUnits painter
                                  layer (getTile source coord))]
        end,
     Throw TypeError).
Proof.
  intros Hready Hreached Hb.
  destruct (reached_inv coord Hreached) as (bucket' & groups & Hb' & Hg).
  rewrite Hb in Hb'. injection Hb' as <-.
  pose proof (bindProgram_not_ready (getTile source coord)
                (paintAttributes_line bucket (layer_id layer)) Hready) as Hbind.
  destruct (line_dasharray (paint layer)) as [dasharray |].
  - rewrite (drawLineCoord_bind_throws _ _ _ _ _ _ _ _ _ TypeError Hb Hg)
      by (rewrite Hbind; reflexivity).
    rewrite Hbind. reflexivity.
  - rewrite (drawLineCoord_unbound _ _ _ _ _ _ _ _ _ Hb Hg)
      by (rewrite Hbind; reflexivity).
    rewrite Hbind. reflexivity.
Qed.

(** The events of a reached coordinate whose program was bound. *)
Lemma drawLineCoord_ready (m : mat2) (coord : TileCoord) (bucket : Bucket)
    (groups : list BufferGroup) :
  assetsReady painter layer = true ->
  getBucket (getTile source coord) layer = Some bucket ->
  bufferGroups_line bucket = Some groups ->
  drawLineCoord browser pixelsToTileUnits painter source layer m coord
  = (trace (bindProgram browser pixelsToTileUnits painter source layer
              (getTile source coord)
              (paintAttributes_line bucket (layer_id layer)))
     ++ coordUniformEvents browser pixelsToTileUnits painter source layer m
          coord bucket
          (programOf (paintAttributes_line bucket (layer_id layer))
             (programNameOf (specVariant (paint layer))))
     ++ trace (forEach
                 (drawGroup layer
                    (programOf (paintAttributes_line bucket (layer_id layer))
                       (programNameOf (specVariant (paint layer)))))
                 groups),
     Normal tt).
Proof.
  intros Hready Hb Hg.
  apply (drawLineCoord_bound _ _ _ _ _ _ _ _ _ _ Hb Hg).
  apply bindProgram_ready, Hready.
Qed.

Lemma drawLineCoord_result (m : mat2) (coord : TileCoord) :
  result (drawLineCoord browser pixelsToTileUnits painter source layer m coord)
  = if negb (reached source layer coord) || assetsReady painter layer
    then Normal tt else Throw TypeError.
Proof.
  destruct (reached source layer coord) eqn:Hr.
  - destruct (reached_inv coord Hr) as (bucket & groups & Hb & Hg).
    destruct (assetsReady painter layer) eqn:Ha.
    + rewrite (drawLineCoord_ready m coord bucket groups Ha Hb Hg). reflexivity.
    + rewrite (drawLineCoord_not_ready m coord bucket Ha Hr Hb). reflexivity.
  - rewrite (drawLineCoord_unreached m coord Hr). reflexivity.
Qed.

End Coordinates.

(** ** What [drawLine] does to the coordinates *)

Section Coordinates2.

Context (browser : Browser) (gl_mat2 : Mat2).
Context (pixelsToTileUnits : Tile -> number -> number -> number).
Context (painter : Painter) (source : Source) (layer : Layer).

Lemma drawLoop_result (m : mat2) (coords : list TileCoord) :
  result (forEach (drawLineCoord browser pixelsToTileUnits painter source layer m)
            coords)
  = if assetsReady painter layer
       || forallb (fun coord => negb (reached source layer coord)) coords
    then Normal tt else Throw TypeError.
Proof.
  induction coords as [| coord coords IH].
  - rewrite orb_true_r. reflexivity.
  - rewrite forEach_cons.
    pose proof (drawLineCoord_result browser pixelsToTileUnits painter source
                  layer m coord) as Hc.
    cbn [forallb].
    destruct (reached source layer coord); cbn [negb orb andb] in Hc |- *.
    + destruct (assetsReady painter layer); cbn [orb] in Hc, IH |- *.
      * rewrite (bind_Normal _ _ tt Hc). exact IH.
      * rewrite (bind_Throw _ _ TypeError Hc). reflexivity.
    + rewrite (bind_Normal _ _ tt Hc). exact IH.
Qed.

(** [drawLine] completes exactly when it has nothing to bind or can bind it:
    in the opaque pass, for a width that is not positive, when the atlas
    entries of the layer's variant are there, or when no coordinate has a
    bucket with line groups. In every other case it throws a [TypeError]. *)
Theorem drawLine_completion (coords : list TileCoord) :
  result (drawLine browser gl_mat2 pixelsToTileUnits painter source layer coords)
  = if isOpaquePass painter
       || le (line_width (paint layer)) 0%js
       || assetsReady painter layer
       || forallb (fun coord => negb (reached source layer coord)) coords
    then Normal tt else Throw TypeError.
Proof.
  destruct (isOpaquePass painter) eqn:Hop.
  { rewrite (drawLine_opaque _ _ _ _ _ _ _ Hop). reflexivity. }
  destruct (le (line_width (paint layer)) 0%js) eqn:Hw.
  { rewrite (drawLine_no_width _ _ _ _ _ _ _ Hop Hw). reflexivity. }
  rewrite (drawLine_loop _ _ _ _ _ _ _ Hop Hw). unfold result at 1. cbn [snd orb].
  apply drawLoop_result.
Qed.

(** Without the atlas entries, [drawLine] stops at the first coordinate that
    has a bucket with line groups, wherever it is in the list: it has asked
    for the program, bound the shared uniforms if the layer is patterned and
    nothing if it is dashed, and throws. *)
Theorem drawLine_aborts_at_first_reached
    (coords : list TileCoord) (coord : TileCoord) (bucket : Bucket) :
  isOpaquePass painter = false ->
  le (line_width (paint layer)) 0%js = false ->
  assetsReady painter layer = false ->
  List.find (reached source layer) coords = Some coord ->
  getBucket (getTile source coord) layer = Some bucket ->
  drawLine browser gl_mat2 pixelsToTileUnits painter source layer coords
  = (prologue
     ++ useEvent (paintAttributes_line bucket (layer_id layer))
          (programNameOf (specVariant (paint layer)))
        :: match line_dasharray (paint layer) with
           | Some _ => []
           | None => [SetUniforms (sharedUniforms browser pixelsToTileUnits
                                     painter layer (getTile source coord))]
           end,
     Throw TypeError).
Proof.
  intros Hop Hw Hready Hfind Hb.
  rewrite (drawLine_loop _ _ _ _ _ _ _ Hop Hw).
  induction coords as [| c coords IH]; [discriminate Hfind |].
  cbn [List.find] in Hfind. rewrite forEach_cons.
  destruct (reached source layer c) eqn:Hr.
  - injection Hfind as ->.
    pose proof (drawLineCoord_not_ready browser pixelsToTileUnits painter source
                  layer (antialiasingMatrixOf gl_mat2 painter) coord bucket
                  Hready Hr Hb) as Hc.
    rewrite (bind_Throw _ _ TypeError (f_equal snd Hc)).
    rewrite Hc. reflexivity.
  - rewrite (drawLineCoord_unreached _ _ _ _ _ _ _ Hr), bind_ret_l.
    exact (IH Hfind).
Qed.

(** The coordinates that are skipped leave no mark: [drawLine] does the same
    on the list without them. *)
Theorem drawLine_skipped_coordinates (coords : list TileCoord) :
  drawLine browser gl_mat2 pixelsToTileUnits painter source layer coords
  = drawLine browser gl_mat2 pixelsToTileUnits painter source layer
      (filter (fun coord => reached source layer coord = true) coords).
Proof.
  assert (Hloop : forall m : mat2,
    forEach (drawLineCoord browser pixelsToTileUnits painter source layer m)
      coords
    = forEach (drawLineCoord browser pixelsToTileUnits painter source layer m)
        (filter (fun coord => reached source layer coord = true) coords)).
  { intros m. induction coords as [| c coords IH]; [reflexivity |].
    rewrite filter_cons. destruct (reached source layer c) eqn:Hr.
    - rewrite decide_True by reflexivity. rewrite !forEach_cons, IH. reflexivity.
    - rewrite decide_False by discriminate.
      rewrite forEach_cons, (drawLineCoord_unreached _ _ _ _ _ _ _ Hr), bind_ret_l.
      exact IH. }
  unfold drawLine. rewrite <- Hloop. reflexivity.
Qed.

End Coordinates2.

(** ** Programs, masks and draw calls *)

Lemma programsUsed_app (tr1 tr2 : list event) :
  programsUsed (tr1 ++ tr2) = programsUsed tr1 ++ programsUsed tr2.
Proof.
  induction tr1 as [| e tr1 IH]; [reflexivity |].
  destruct e; cbn [app programsUsed]; rewrite IH; reflexivity.
Qed.

Lemma drawsUnderMask_no_draw (mask : option TileCoord) (tr : list event) :
  drawEvents tr = [] -> drawsUnderMask mask tr = [].
Proof.
  revert mask. induction tr as [| e tr IH]; intros mask H; [reflexivity |].
  unfold drawEvents in H. rewrite filter_cons in H.
  destruct (isDrawElements e) eqn:He.
  - rewrite decide_True in H by reflexivity. discriminate H.
  - rewrite decide_False in H by discriminate.
    destruct e; cbn [drawsUnderMask]; try rewrite He; apply IH, H.
Qed.

Section Masks.

Context (browser : Browser) (gl_mat2 : Mat2).
Context (pixelsToTileUnits : Tile -> number -> number -> number).
Context (painter : Painter) (source : Source) (layer : Layer).

Lemma drawsUnderMask_bindProgram (mask : option TileCoord) (tile : Tile)
    (programOptions : ProgramOptions) (rest : list event) :
  drawsUnderMask mask
    (trace (bindProgram browser pixelsToTileUnits painter source layer tile
              programOptions) ++ rest)
  = drawsUnderMask mask rest.
Proof.
  unfold bindProgram.
  destruct (line_dasharray (paint layer)) as [dasharray |].
  - unfold bindLineSDFPatternProgram.
    destruct (getDash (lineAtlas painter) (from dasharray) _) as [posA |];
      [destruct (getDash (lineAtlas painter) (to dasharray) _) as [posB |] |];
      reflexivity.
  - destruct (line_pattern (paint layer)) as [image |]; [| reflexivity].
    unfold bindLinePatternProgram.
    destruct (getPosition (spriteAtlas painter) (from image) true) as [a |];
      destruct (getPosition (spriteAtlas painter) (to image) true) as [b |];
      reflexivity.
Qed.

Lemma drawsUnderMask_groups (coord : TileCoord) (program : Program)
    (groups : list BufferGroup) (rest : list event) :
  drawsUnderMask (Some coord)
    (trace (forEach (drawGroup layer program) groups) ++ rest)
  = map (fun group => (Some coord, groupDraw group)) groups
    ++ drawsUnderMask (Some coord) rest.
Proof.
  induction groups as [| g groups IH]; [reflexivity |].
  rewrite forEach_cons, (bind_Normal _ _ tt) by reflexivity.
  unfold trace at 1. cbn [fst]. rewrite <- app_assoc.
  cbn. f_equal. exact IH.
Qed.

(** A coordinate's draw calls are its own, under its own mask, whatever
    mask was enabled before. *)
Lemma drawsUnderMask_coord (m : mat2) (mask : option TileCoord)
    (coord : TileCoord) (rest : list event) :
  assetsReady painter layer = true ->
  exists mask' : option TileCoord,
    drawsUnderMask mask
      (trace (drawLineCoord browser pixelsToTileUnits painter source layer m
                coord) ++ rest)
    = drawsOwed source layer coord ++ drawsUnderMask mask' rest.
Proof.
  intros Hready. destruct (reached source layer coord) eqn:Hr.
  - destruct (reached_inv source layer coord Hr) as (bucket & groups & Hb & Hg).
    rewrite (drawLineCoord_ready browser pixelsToTileUnits painter source layer
               m coord bucket groups Hready Hb Hg).
    exists (Some coord). unfold trace at 1. cbn [fst]. rewrite <- !app_assoc.
    rewrite drawsUnderMask_bindProgram. cbn [coordUniformEvents app
      drawsUnderMask isDrawElements].
    rewrite drawsUnderMask_groups. unfold drawsOwed, groupsOf.
    rewrite Hb, Hg. reflexivity.
  - rewrite (drawLineCoord_unreached _ _ _ _ _ _ _ Hr).
    exists mask. unfold drawsOwed. rewrite (groupsOf_unreached _ _ _ Hr).
    reflexivity.
Qed.

Lemma drawsUnderMask_loop (m : mat2) (mask : option TileCoord)
    (coords : list TileCoord) :
  assetsReady painter layer = true ->
  drawsUnderMask mask
    (concat (map (fun coord =>
                    trace (drawLineCoord browser pixelsToTileUnits painter
                             source layer m coord)) coords))
  = concat (map (drawsOwed source layer) coords).
Proof.
  intros Hready. revert mask.
  induction coords as [| coord coords IH]; intros mask; [reflexivity |].
  cbn [map concat].
  destruct (drawsUnderMask_coord m mask coord
              (concat (map (fun coord =>
                 trace (drawLineCoord browser pixelsToTileUnits painter source
                          layer m coord)) coords)) Hready) as [mask' ->].
  rewrite IH. reflexivity.
Qed.

Lemma drawLoop_ready (m : mat2) (coords : list TileCoord) :
  assetsReady painter layer = true ->
  forEach (drawLineCoord browser pixelsToTileUnits painter source layer m) coords
  = (concat (map (fun coord =>
                    trace (drawLineCoord browser pixelsToTileUnits painter
                             source layer m coord)) coords),
     Normal tt).
Proof.
  intros Hready.
  destruct (forEach_cases
              (drawLineCoord browser pixelsToTileUnits painter source layer m)
              coords)
    as [[_ H] | (l1 & c & l2 & e & _ & _ & Hc & _)]; [exact H |].
  rewrite drawLineCoord_result, Hready, orb_true_r in Hc. discriminate Hc.
Qed.

Lemma drawLoop_not_ready_drawEvents (m : mat2) (coords : list TileCoord) :
  assetsReady painter layer = false ->
  drawEvents
    (trace (forEach (drawLineCoord browser pixelsToTileUnits painter source
                       layer m) coords)) = [].
Proof.
  intros Hready. induction coords as [| c coords IH]; [reflexivity |].
  rewrite forEach_cons.
  destruct (reached source layer c) eqn:Hr.
  - pose proof (drawLineCoord_result browser pixelsToTileUnits painter source
                  layer m c) as Hc.
    rewrite Hr, Hready in Hc. cbn in Hc.
    rewrite (bind_Throw _ _ TypeError Hc). unfold trace at 1. cbn [fst].
    apply (drawLineCoord_throw_drawEvents _ _ _ _ _ _ _ _ Hc).
  - rewrite (drawLineCoord_unreached _ _ _ _ _ _ _ Hr), bind_ret_l. exact IH.
Qed.

(** Every draw call of [drawLine] is made under the clipping mask of the
    coordinate whose buffer group it draws. With the atlas entries of the
    layer there, outside the opaque pass and for a positive width, the draw
    calls are those of all the buffer groups of all the coordinates, in
    order; in every other case there is none. *)
Theorem drawLine_draws_under_masks (coords : list TileCoord) :
  drawsUnderMask None
    (trace (drawLine browser gl_mat2 pixelsToTileUnits painter source layer
              coords))
  = if isOpaquePass painter
       || le (line_width (paint layer)) 0%js
       || negb (assetsReady painter layer)
    then []
    else concat (map (drawsOwed source layer) coords).
Proof.
  destruct (isOpaquePass painter) eqn:Hop.
  { rewrite (drawLine_opaque _ _ _ _ _ _ _ Hop). reflexivity. }
  destruct (le (line_width (paint layer)) 0%js) eqn:Hw.
  { rewrite (drawLine_no_width _ _ _ _ _ _ _ Hop Hw). reflexivity. }
  rewrite (drawLine_loop _ _ _ _ _ _ _ Hop Hw). unfold trace at 1.
  cbn [fst orb prologue app drawsUnderMask isDrawElements].
  destruct (assetsReady painter layer) eqn:Hready; cbn [negb].
  - rewrite (drawLoop_ready _ _ Hready). unfold trace at 1. cbn [fst].
    apply drawsUnderMask_loop, Hready.
  - apply drawsUnderMask_no_draw, drawLoop_not_ready_drawEvents, Hready.
Qed.

(** With the atlas entries there, the program of the layer's variant is
    asked of the painter once for every coordinate that has a bucket with
    line groups, and no other program is. *)
Theorem drawLine_programs_used (coords : list TileCoord) :
  isOpaquePass painter = false ->
  le (line_width (paint layer)) 0%js = false ->
  assetsReady painter layer = true ->
  programsUsed
    (trace (drawLine browser gl_mat2 pixelsToTileUnits painter source layer
              coords))
  = replicate
      (length (filter (fun coord => reached source layer coord = true) coords))
      (programNameOf (specVariant (paint layer))).
Proof.
  intros Hop Hw Hready.
  rewrite (drawLine_loop _ _ _ _ _ _ _ Hop Hw). unfold trace at 1.
  cbn [fst prologue app programsUsed].
  rewrite (drawLoop_ready _ _ Hready). unfold trace at 1. cbn [fst].
  induction coords as [| c coords IH]; [reflexivity |].
  cbn [map concat]. rewrite programsUsed_app, IH, filter_cons.
  destruct (reached source layer c) eqn:Hr.
  - rewrite decide_True by reflexivity.
    destruct (reached_inv source layer c Hr) as (bucket & groups & Hb & Hg).
    rewrite (drawLineCoord_ready browser pixelsToTileUnits painter source layer
               _ c bucket groups Hready Hb Hg).
    unfold trace at 1. cbn [fst]. rewrite !programsUsed_app.
    rewrite bindProgram_programsUsed.
    replace (programsUsed (trace (forEach _ groups))) with (@nil string).
    + unfold specVariant.
      destruct (line_dasharray (paint layer)), (line_pattern (paint layer));
        reflexivity.
    + clear. induction groups as [| g groups IH]; [reflexivity |].
      rewrite forEach_cons, (bind_Normal _ _ tt) by reflexivity.
      unfold trace at 1. cbn [fst]. rewrite programsUsed_app.
      fold (trace (forEach (drawGroup layer
        (programOf (paintAttributes_line bucket (layer_id layer))
           (programNameOf (specVariant (paint layer))))) groups)).
      rewrite <- IH. reflexivity.
  - rewrite decide_False by discriminate.
    rewrite (drawLineCoord_unreached _ _ _ _ _ _ _ Hr). reflexivity.
Qed.

End Masks.

(** ** What the events have in common *)

Lemma forEach_trace_Forall {A} (P : event -> Prop) (body : A -> M unit)
    (l : list A) :
  (forall a : A, Forall P (trace (body a))) ->
  Forall P (trace (forEach body l)).
Proof.
  intros Hbody. induction l as [| a l IH]; [constructor |].
  rewrite forEach_cons.
  destruct (result (body a)) as [[] | e] eqn:Ha.
  - rewrite (bind_Normal _ _ tt Ha). unfold trace at 1. cbn [fst].
    apply Forall_app. split; [apply Hbody | exact IH].
  - rewrite (bind_Throw _ _ e Ha). apply Hbody.
Qed.

Section Events.

Context (browser : Browser) (gl_mat2 : Mat2).
Context (pixelsToTileUnits : Tile -> number -> number -> number).
Context (painter : Painter) (source : Source) (layer : Layer).

Lemma bindProgram_lineEvents (tile : Tile) (programOptions : ProgramOptions) :
  Forall lineEvent
    (trace (bindProgram browser pixelsToTileUnits painter source layer tile
              programOptions)).
Proof.
  unfold bindProgram.
  destruct (line_dasharray (paint layer)) as [dasharray |].
  - unfold bindLineSDFPatternProgram.
    destruct (getDash (lineAtlas painter) (from dasharray) _) as [posA |];
      [destruct (getDash (lineAtlas painter) (to dasharray) _) as [posB |] |];
      cbn; repeat constructor.
  - destruct (line_pattern (paint layer)) as [image |].
    + unfold bindLinePatternProgram.
      destruct (getPosition (spriteAtlas painter) (from image) true) as [a |];
        destruct (getPosition (spriteAtlas painter) (to image) true) as [b |];
        cbn; repeat constructor.
    + cbn. repeat constructor.
Qed.

Lemma drawGroup_lineEvents (program : Program) (group : BufferGroup) :
  Forall lineEvent (trace (drawGroup layer program group)).
Proof.
  cbn. repeat constructor.
  exists (buffer_length (elementBuffer group)). reflexivity.
Qed.

Lemma drawLineCoord_lineEvents (m : mat2) (coord : TileCoord) :
  Forall lineEvent
    (trace (drawLineCoord browser pixelsToTileUnits painter source layer m
              coord)).
Proof.
  destruct (getBucket (getTile source coord) layer) as [bucket |] eqn:H1.
  2:{ rewrite (drawLineCoord_no_bucket _ _ _ _ _ _ _ H1). constructor. }
  destruct (bufferGroups_line bucket) as [groups |] eqn:H2.
  2:{ rewrite (drawLineCoord_no_groups _ _ _ _ _ _ _ _ H1 H2). constructor. }
  pose proof (bindProgram_lineEvents (getTile source coord)
                (paintAttributes_line bucket (layer_id layer))) as Hbind.
  destruct (result (bindProgram browser pixelsToTileUnits painter source layer
                      (getTile source coord)
                      (paintAttributes_line bucket (layer_id layer))))
    as [[program |] | e] eqn:Hb.
  - rewrite (drawLineCoord_bound _ _ _ _ _ _ _ _ _ _ H1 H2 Hb).
    unfold trace at 1. cbn [fst].
    apply Forall_app. split; [exact Hbind |].
    apply Forall_app. split; [cbn; repeat constructor |].
    apply forEach_trace_Forall. intros g. apply drawGroup_lineEvents.
  - rewrite (drawLineCoord_unbound _ _ _ _ _ _ _ _ _ H1 H2 Hb).
    unfold trace at 1. cbn [fst].
    apply Forall_app. split; [exact Hbind | repeat constructor].
  - rewrite (drawLineCoord_bind_throws _ _ _ _ _ _ _ _ _ _ H1 H2 Hb).
    exact Hbind.
Qed.

(** However it ends, [drawLine] only ever disables the depth mask, enables
    the stencil test, asks for one of the three line programs, sets the
    sampler [u_image] to texture unit 0 after activating that unit, and
    draws triangles: whole ones, from the start of an element buffer of
    unsigned shorts. *)
Theorem drawLine_events (coords : list TileCoord) :
  Forall lineEvent
    (trace (drawLine browser gl_mat2 pixelsToTileUnits painter source layer
              coords)).
Proof.
  destruct (isOpaquePass painter) eqn:Hop.
  { rewrite (drawLine_opaque _ _ _ _ _ _ _ Hop). constructor. }
  destruct (le (line_width (paint layer)) 0%js) eqn:Hw.
  { rewrite (drawLine_no_width _ _ _ _ _ _ _ Hop Hw). cbn. repeat constructor. }
  rewrite (drawLine_loop _ _ _ _ _ _ _ Hop Hw). unfold trace at 1. cbn [fst].
  apply Forall_app. split; [cbn; repeat constructor |].
  apply forEach_trace_Forall. intros coord. apply drawLineCoord_lineEvents.
Qed.

End Events.

(** ** The uniforms of a variant and the shared ones *)

Lemma uniformAfter_app (name : string) (tr1 tr2 : list event)
    (cur : option uvalue) :
  uniformAfter name (tr1 ++ tr2) cur
  = uniformAfter name tr2 (uniformAfter name tr1 cur).
Proof.
  revert cur. induction tr1 as [| e tr1 IH]; intros cur; [reflexivity |].
  destruct e; cbn [app uniformAfter]; apply IH.
Qed.

Section VariantUniforms.

Context (browser : Browser) (gl_mat2 : Mat2).
Context (pixelsToTileUnits : Tile -> number -> number -> number).
Context (painter : Painter) (source : Source) (layer : Layer).

Lemma shared_names (tile : Tile) (name : string) :
  is_Some (sharedUniforms browser pixelsToTileUnits painter layer tile !! name) ->
  name ∈ ["u_ratio"; "u_blur"; "u_extra"; "u_linewidth"; "u_opacity";
          "u_offset"; "u_gapwidth"; "u_antialiasing"].
Proof.
  intros [v H]. apply elem_of_dom_2 in H. unfold sharedUniforms in H.
  rewrite !dom_insert_L, dom_singleton_L in H. set_unfold in H.
  set_unfold. tauto.
Qed.

Lemma uniformAfter_groups (name : string) (program : Program)
    (groups : list BufferGroup) (cur : option uvalue) :
  uniformAfter name (trace (forEach (drawGroup layer program) groups)) cur = cur.
Proof.
  induction groups as [| g groups IH]; [reflexivity |].
  rewrite forEach_cons, (bind_Normal _ _ tt) by reflexivity.
  unfold trace at 1. cbn [fst]. rewrite uniformAfter_app. exact IH.
Qed.

(** The shared uniforms name none of the uniforms of the dashed and of the
    patterned variant. So when the draw calls of a coordinate are made, every
    uniform the binder of the variant set still has the binder's value, unless
    the bucket's own uniforms name it. *)
Theorem variant_uniforms_survive
    (m : mat2) (coord : TileCoord) (bucket : Bucket)
    (groups : list BufferGroup) (program : Program)
    (name : string) (v : uvalue) :
  let bound := bindProgram browser pixelsToTileUnits painter source layer
                 (getTile source coord)
                 (paintAttributes_line bucket (layer_id layer)) in
  getBucket (getTile source coord) layer = Some bucket ->
  bufferGroups_line bucket = Some groups ->
  result bound = Normal (Some program) ->
  uniformAfter name (trace bound) None = Some v ->
  getUniforms_line bucket program layer (zoom (transform painter)) !! name
  = None ->
  sharedUniforms browser pixelsToTileUnits painter layer (getTile source coord)
    !! name = None
  /\ uniformAfter name
       (trace (drawLineCoord browser pixelsToTileUnits painter source layer m
                 coord)) None
     = Some v.
Proof.
  intros bound Hb Hg Hr Hv Hbucket.
  assert (Hshared :
    sharedUniforms browser pixelsToTileUnits painter layer
      (getTile source coord) !! name = None).
  { destruct (sharedUniforms browser pixelsToTileUnits painter layer
                (getTile source coord) !! name) as [w |] eqn:Hw;
      [| reflexivity].
    exfalso. pose proof (shared_names _ _ (mk_is_Some _ _ Hw)) as Hname.
    clear Hw Hr. subst bound. unfold bindProgram in Hv.
    destruct (line_dasharray (paint layer)) as [dasharray |].
    - unfold bindLineSDFPatternProgram in Hv.
      destruct (getDash (lineAtlas painter) (from dasharray) _) as [posA |];
        [destruct (getDash (lineAtlas painter) (to dasharray) _) as [posB |] |];
        cbn in Hv; try discriminate Hv.
      set_unfold in Hname.
      repeat (destruct Hname as [-> | Hname]; [discriminate Hv |]).
      exact Hname.
    - destruct (line_pattern (paint layer)) as [image |].
      + unfold bindLinePatternProgram in Hv.
        destruct (getPosition (spriteAtlas painter) (from image) true) as [a |];
          destruct (getPosition (spriteAtlas painter) (to image) true) as [b |];
          cbn in Hv; try discriminate Hv.
        set_unfold in Hname.
        repeat (destruct Hname as [-> | Hname]; [discriminate Hv |]).
        exact Hname.
      + cbn in Hv. discriminate Hv. }
  split; [exact Hshared |].
  rewrite (drawLineCoord_bound _ _ _ _ _ _ _ _ _ _ Hb Hg Hr).
  unfold trace at 1. cbn [fst]. fold bound.
  rewrite !uniformAfter_app, Hv, uniformAfter_groups.
  cbn [coordUniformEvents uniformAfter]. rewrite Hshared, Hbucket. reflexivity.
Qed.

End VariantUniforms.

(** ** [asyncTimesSeries] *)

Section SeriesFacts.

Context {Err Ans : Type}.

Lemma asyncTimesSeries_done (times : Z) (work : (option Err -> Ans) -> Ans)
    (callback : option Err -> Ans) :
  (times <= 0)%Z -> asyncTimesSeries times work callback = callback None.
Proof.
  intros H. rewrite asyncTimesSeries_equation_1.
  destruct (Z_gt_dec times 0); [lia | reflexivity].
Qed.

Lemma asyncTimesSeries_step (times : Z) (work : (option Err -> Ans) -> Ans)
    (callback : option Err -> Ans) :
  (times > 0)%Z ->
  asyncTimesSeries times work callback
  = work (fun err =>
            match err with
            | Some e => callback (Some e)
            | None => asyncTimesSeries (times - 1) work callback
            end).
Proof.
  intros H. rewrite asyncTimesSeries_equation_1.
  destruct (Z_gt_dec times 0); [reflexivity | lia].
Qed.

End SeriesFacts.

Section SeriesOfTasks.

Context {Err St Ans : Type}.

(** With work that calls back once, [asyncTimesSeries] is the loop: the work
    is run [times] times in a row, or not at all when [times] is not
    positive, each run starting where the one before ended; the first error
    stops it; and the callback is called once, with that error or with none,
    when the runs are over. *)
Theorem asyncTimesSeries_in_series (times : Z)
    (task : St -> option Err * St) (callback : option Err -> St -> Ans)
    (s : St) :
  asyncTimesSeries times (callingBack task) callback s
  = callback (inSeries (Z.to_nat times) task s).1
      (inSeries (Z.to_nat times) task s).2.
Proof.
  remember (Z.to_nat times) as n eqn:Hn. revert times s Hn.
  induction n as [| n IH]; intros times s Hn.
  - rewrite asyncTimesSeries_done by lia. reflexivity.
  - rewrite asyncTimesSeries_step by lia.
    unfold callingBack at 1. cbn [inSeries].
    destruct ((task s).1) as [e |]; [reflexivity |].
    apply IH. lia.
Qed.

End SeriesOfTasks.

(** ** The samples of [run] *)

Section SamplesFacts.

Context {Err World : Type}.
Context (formatNumber : number -> string).

(** The work only looks at what its callback does without an error. *)
Lemma sampleWork_callback
    (runSample :
       (option Err -> number -> Sampling Err World -> Sampling Err World) ->
       Sampling Err World -> Sampling Err World)
    (k k' : option Err -> Sampling Err World -> Sampling Err World) :
  k None = k' None ->
  sampleWork formatNumber runSample k = sampleWork formatNumber runSample k'.
Proof.
  intros H. unfold sampleWork. apply (f_equal runSample).
  apply functional_extensionality. intros err.
  apply functional_extensionality. intros time.
  apply functional_extensionality. intros s.
  destruct err as [e |]; [reflexivity |]. rewrite H. reflexivity.
Qed.

(** The series of [run] is only ever completed without an error: whatever
    [runSample] does, the work hands [callback()] to the series and nothing
    else, so that the ['error'] branch of the last callback is never
    taken. *)
Theorem samples_never_end_in_error
    (runSample :
       (option Err -> number -> Sampling Err World -> Sampling Err World) ->
       Sampling Err World -> Sampling Err World)
    (times : Z)
    (done : option Err -> Sampling Err World -> Sampling Err World) :
  asyncTimesSeries times (sampleWork formatNumber runSample) done
  = asyncTimesSeries times (sampleWork formatNumber runSample)
      (fun _ => done None).
Proof.
  remember (Z.to_nat times) as n eqn:Hn. revert times Hn.
  induction n as [| n IH]; intros times Hn.
  - rewrite !asyncTimesSeries_done by lia. reflexivity.
  - rewrite (asyncTimesSeries_step times _ done) by lia.
    rewrite (asyncTimesSeries_step times _ (fun _ => done None)) by lia.
    apply sampleWork_callback. apply IH. lia.
Qed.

Lemma samplesTaken_length (n : nat)
    (sample : World -> option Err * number * World) (w : World) :
  length (samplesTaken n sample w).1.1 <= n
  /\ ((samplesTaken n sample w).1.2 = None ->
      length (samplesTaken n sample w).1.1 = n).
Proof.
  revert w. induction n as [| n IH]; intros w; [split; reflexivity |].
  cbn [samplesTaken].
  destruct ((sample w).1.1) as [e |]; cbn [fst snd length].
  - split; [lia | discriminate].
  - destruct (IH (sample w).2) as [H1 H2]. split; [lia |].
    intros H. rewrite (H2 H). reflexivity.
Qed.

Lemma sampling_loop (n : nat)
    (sample : World -> option Err * number * World)
    (s : Sampling Err World) (c : R) :
  timeCount s = Num c ->
  let taken := samplesTaken n sample (world s) in
  let total := fold_left add taken.1.1 (timeSum s) in
  let count := Num (c + INR (length taken.1.1)) in
  asyncTimesSeries (Z.of_nat n) (sampleWork formatNumber (samplingOnce sample))
    (samplesDone formatNumber) s
  = {| timeSum := total;
       timeCount := count;
       events :=
         events s ++ map (sampleLog formatNumber) taken.1.1
         ++ [match taken.1.2 with
             | Some e => FireError e
             | None => FireEnd (formatNumber (total / count)%js ++ " ms")
                         (total / count)%js
             end];
       world := taken.2 |}.
Proof.
  revert s c. induction n as [| n IH]; intros s c Hc taken total count.
  - rewrite asyncTimesSeries_done by lia.
    subst taken total count. cbn [samplesTaken fst snd length fold_left map app].
    change (INR 0) with 0%R. rewrite Rplus_0_r, <- Hc.
    destruct s; reflexivity.
  - rewrite asyncTimesSeries_step by lia.
    replace (Z.of_nat (S n) - 1)%Z with (Z.of_nat n) by lia.
    subst taken total count. unfold sampleWork at 1, samplingOnce at 1.
    cbn [samplesTaken timeSum timeCount events world].
    destruct ((sample (world s)).1.1) as [e |].
    + cbn [fst snd length fold_left map app fire timeSum timeCount events world].
      change (INR 0) with 0%R. rewrite Rplus_0_r, <- Hc. reflexivity.
    + rewrite (IH _ (c + 1)%R)
        by (cbn [fire timeCount]; rewrite Hc; reflexivity).
      cbn [fst snd length fold_left map fire timeSum timeCount events world].
      rewrite S_INR.
      replace (c + 1 + INR (length (samplesTaken n sample (sample (world s)).2).1.1))%R
        with (c + (INR (length (samplesTaken n sample (sample (world s)).2).1.1) + 1))%R
        by ring.
      rewrite <- !app_assoc. reflexivity.
Qed.

(** With a [runSample] that calls back once, [run] takes its ten samples in
    a row, logs the time of each, and ends with the mean of the ten times as
    score; a sample that fails fires ['error'], and then no further sample is
    taken and ['end'] is never fired. *)
Theorem runSamples_mean_or_error
    (sample : World -> option Err * number * World)
    (s : Sampling Err World) :
  let taken := samplesTaken 10 sample (world s) in
  let total := fold_left add taken.1.1 0%js in
  let count := Num (INR (length taken.1.1)) in
  runSamples formatNumber (samplingOnce sample) s
  = {| timeSum := total;
       timeCount := count;
       events :=
         events s ++ map (sampleLog formatNumber) taken.1.1
         ++ [match taken.1.2 with
             | Some e => FireError e
             | None => FireEnd (formatNumber (total / Num 10)%js ++ " ms")
                         (total / Num 10)%js
             end];
       world := taken.2 |}.
Proof.
  intros taken total count. unfold runSamples, SAMPLE_COUNT.
  change 10%Z with (Z.of_nat 10).
  rewrite (sampling_loop 10 sample
             {| timeSum := 0%js; timeCount := 0%js;
                events := events s; world := world s |} 0 eq_refl).
  cbn [timeSum timeCount events world]. fold taken. fold total.
  rewrite Rplus_0_l. fold count.
  destruct (taken.1.2) as [e |] eqn:Herr; [reflexivity |].
  destruct (samplesTaken_length 10 sample (world s)) as [_ Hlen].
  fold taken in Hlen. specialize (Hlen Herr).
  subst count. rewrite Hlen.
  replace (INR 10) with 10%R by (simpl; ring).
  reflexivity.
Qed.

End SamplesFacts.

(** ** The stylesheet [run] prepares *)

Lemma colorByLevel_idempotent (layer : StylesheetLayer) :
  colorByLevel (colorByLevel layer) = colorByLevel layer.
Proof.
  unfold colorByLevel.
  destruct (sheet_paint layer) as [paint |] eqn:Hp; [| rewrite Hp; reflexivity].
  destruct (String.eqb (sheet_type layer) "fill") eqn:Ht.
  - cbn [sheet_paint sheet_type sheet_id]. rewrite Ht, insert_insert_eq.
    reflexivity.
  - rewrite Hp, Ht. reflexivity.
Qed.

(** Before it samples, [run] makes the fill colour of every fill layer that
    has a paint a function of the feature property [level], from white at 0
    to blue at 100. The layers keep their number, order, ids and types; the
    other paint properties of a fill layer are kept; a layer of another type,
    and a fill layer without a paint, are left as they are; and doing it twice
    changes nothing more. *)
Theorem colorLayersByLevel_spec (layers : list StylesheetLayer) :
  length (colorLayersByLevel layers) = length layers
  /\ (forall (i : nat) (layer : StylesheetLayer),
        layers !! i = Some layer ->
        exists layer' : StylesheetLayer,
          colorLayersByLevel layers !! i = Some layer'
          /\ sheet_id layer' = sheet_id layer
          /\ sheet_type layer' = sheet_type layer
          /\ match sheet_paint layer with
             | Some paint =>
                 if String.eqb (sheet_type layer) "fill"
                 then exists paint' : gmap string PaintValue,
                        sheet_paint layer' = Some paint'
                        /\ paint' !! "fill-color"
                           = Some (PropertyFunction "level"
                                     [(0, "white"); (100, "blue")]%Z)
                        /\ forall name : string,
                             name <> "fill-color" ->
                             paint' !! name = paint !! name
                 else layer' = layer
             | None => layer' = layer
             end)
  /\ colorLayersByLevel (colorLayersByLevel layers) = colorLayersByLevel layers.
Proof.
  unfold colorLayersByLevel. split; [apply length_map |]. split.
  - intros i layer Hi. exists (colorByLevel layer).
    split; [change (map colorByLevel layers) with (colorByLevel <$> layers);
            rewrite list_lookup_fmap, Hi; reflexivity |].
    unfold colorByLevel.
    destruct (sheet_paint layer) as [paint |]; [| repeat split].
    destruct (String.eqb (sheet_type layer) "fill"); [| repeat split].
    cbn [sheet_id sheet_type sheet_paint]. repeat split.
    exists (<["fill-color" :=
                PropertyFunction "level" [(0, "white"); (100, "blue")]%Z]> paint).
    split; [reflexivity |]. split; [apply lookup_insert_eq |].
    intros name Hne. apply lookup_insert_ne. congruence.
  - rewrite map_map. apply map_ext. intros layer. apply colorByLevel_idempotent.
Qed.

(** ** The property data [runSample] keeps *)

Section PropertyDataFacts.

Context {Properties : Type}.

Lemma pushProperties_seq (layer : VectorTileLayer Properties) (i remaining : nat)
    (array : list Properties) :
  pushProperties layer i remaining array
  = array ++ map (vt_properties layer) (seq i remaining).
Proof.
  revert i array. induction remaining as [| n IH]; intros i array.
  - cbn. rewrite app_nil_r. reflexivity.
  - cbn [pushProperties seq map]. rewrite IH, <- app_assoc. reflexivity.
Qed.

(** The property data kept for a tile has an array for every layer of the
    tile and for nothing else; the array of a layer is as long as the layer,
    and its entry [i] holds the properties of feature [i]. *)
Theorem copyPropertyData_spec (layers : gmap string (VectorTileLayer Properties))
    (layerId : string) :
  match layers !! layerId with
  | Some layer =>
      exists array : list Properties,
        copyPropertyData layers !! layerId = Some array
        /\ length array = vt_length layer
        /\ forall i : nat,
             array !! i
             = if decide (i < vt_length layer)
               then Some (vt_properties layer i) else None
  | None => copyPropertyData layers !! layerId = None
  end.
Proof.
  assert (Hfmap : copyPropertyData layers
    = (fun layer => map (vt_properties layer) (seq 0 (vt_length layer)))
      <$> layers).
  { unfold copyPropertyData.
    apply (map_fold_weak_ind (fun r m =>
      r = (fun layer => map (vt_properties layer) (seq 0 (vt_length layer)))
          <$> m)).
    - rewrite fmap_empty. reflexivity.
    - intros i x m r _ ->. rewrite fmap_insert, pushProperties_seq. reflexivity. }
  rewrite Hfmap, lookup_fmap.
  destruct (layers !! layerId) as [layer |]; [| reflexivity].
  eexists. split; [reflexivity |].
  split; [rewrite length_map, length_seq; reflexivity |].
  intros i.
  change (map (vt_properties layer) (seq 0 (vt_length layer)))
    with (vt_properties layer <$> seq 0 (vt_length layer)).
  rewrite list_lookup_fmap. case_decide.
  - rewrite lookup_seq_lt by assumption. reflexivity.
  - rewrite lookup_seq_ge by lia. reflexivity.
Qed.

End PropertyDataFacts.

(** ** Runs of [createLayerFamilies] *)

Section CacheRunFacts.

Context {StyleLayer LayerFamilies : Type}.
Context (set_layers : list StyleLayer -> LayerFamilies).

(** The cache does not see an array change in place: once a call with an
    array has missed, a call with the same reference returns the families of
    the elements the array had then, whatever it holds now, and constructs no
    worker. *)
Theorem createLayerFamilies_stale
    (layers changed : LayerArray StyleLayer) (g : Globals LayerFamilies) :
  createLayerFamiliesCacheKey g <> Some (array_ref layers) ->
  array_ref changed = array_ref layers ->
  let first := createLayerFamilies set_layers layers g in
  let again := createLayerFamilies set_layers changed first.2 in
  again.1 = Some {| families_ref := nextObject g;
                    families_value := set_layers (array_elems layers) |}
  /\ again.2 = first.2
  /\ workersCreated again.2 = S (workersCreated g).
Proof.
  intros Hmiss Href first again. subst first again.
  rewrite (createLayerFamilies_miss _ _ _ Hmiss). cbn [fst snd].
  rewrite createLayerFamilies_hit by (cbn; rewrite Href; reflexivity).
  repeat split.
Qed.

Lemma afterCalls_cons (layers : LayerArray StyleLayer)
    (calls : list (LayerArray StyleLayer)) (g : Globals LayerFamilies) :
  afterCalls set_layers (layers :: calls) g
  = afterCalls set_layers calls (createLayerFamilies set_layers layers g).2.
Proof. reflexivity. Qed.

(** Over a run of calls, a worker is constructed for each call whose array
    is not the one of the call before, and for no other; each of them takes
    the next object identity; and the cache keeps holding objects created
    before [nextObject]. *)
Theorem createLayerFamilies_runs
    (calls : list (LayerArray StyleLayer)) (g : Globals LayerFamilies) :
  let g' := afterCalls set_layers calls g in
  let changes :=
    referenceChanges (createLayerFamiliesCacheKey g) (map array_ref calls) in
  workersCreated g' = workersCreated g + changes
  /\ Pos.to_nat (nextObject g') = Pos.to_nat (nextObject g) + changes
  /\ (cacheAllocated g -> cacheAllocated g')
  /\ (createLayerFamiliesCacheKey g = None
      \/ is_Some (createLayerFamiliesCacheValue g) ->
      forall layers : LayerArray StyleLayer,
        is_Some (createLayerFamilies set_layers layers g').1).
Proof.
  revert g. induction calls as [| layers calls IH]; intros g g' changes.
  - subst g' changes. unfold afterCalls. cbn [foldl map referenceChanges].
    split; [lia |]. split; [lia |].
    split; [tauto |]. intros Hinv layers'.
    destruct (decide (createLayerFamiliesCacheKey g = Some (array_ref layers')))
      as [H | H].
    + rewrite (createLayerFamilies_hit _ _ _ H). cbn.
      destruct Hinv as [Hnone | Hsome]; [congruence | exact Hsome].
    + rewrite (createLayerFamilies_miss _ _ _ H). cbn. eexists. reflexivity.
  - subst g' changes. rewrite afterCalls_cons. cbn [map referenceChanges].
    specialize (IH (createLayerFamilies set_layers layers g).2).
    cbn zeta in IH. destruct IH as (IH1 & IH2 & IH3 & IH4).
    rewrite (createLayerFamilies_key set_layers layers g) in IH1, IH2.
    destruct (decide (createLayerFamiliesCacheKey g = Some (array_ref layers)))
      as [H | H].
    + rewrite (createLayerFamilies_hit _ _ _ H) in IH1, IH2, IH3, IH4 |- *.
      cbn [snd] in *.
      rewrite bool_decide_eq_true_2 by (symmetry; exact H).
      split; [lia |]. split; [lia |]. split; [exact IH3 |].
      intros Hinv. apply IH4. right.
      destruct Hinv as [Hnone | Hsome]; [congruence | exact Hsome].
    + rewrite bool_decide_eq_false_2 by (intros E; apply H; symmetry; exact E).
      pose proof (createLayerFamilies_allocated set_layers layers g) as Hal.
      rewrite (createLayerFamilies_miss _ _ _ H) in IH1, IH2, IH3, IH4, Hal |- *.
      cbn [snd workersCreated nextObject] in *.
      split; [lia |]. split; [lia |]. split; [tauto |].
      intros _. apply IH4. right. cbn. eexists. reflexivity.
Qed.

End CacheRunFacts.

(** ** More on the scene *)

Section OnTheScene2.

Import Scene Scene2.

(** The dashed layer with a dash atlas out of space: the first coordinate
    has no bucket, and the call is aborted on the second. *)
Lemma drawLine_aborts_at_first_reached_witness :
  drawLine browser1 glMatrix sixteenUnits spaceless source2 dashedLayer
    [coord0; coord1; coord2]
  = ([SetDepthSublayer 0%js; DepthMask false; Enable STENCIL_TEST;
      UseProgram "linesdfpattern" [] ∅ ∅],
     Throw TypeError).
Proof.
  apply (drawLine_aborts_at_first_reached browser1 glMatrix sixteenUnits
           spaceless source2 dashedLayer [coord0; coord1; coord2] coord1
           bucket2).
  - reflexivity.
  - exact two_is_positive.
  - reflexivity.
  - reflexivity.
  - reflexivity.
Defined.

Lemma drawLine_programs_used_witness :
  programsUsed
    (trace (drawLine browser1 glMatrix sixteenUnits ready source2 dashedLayer
              [coord0; coord1; coord2]))
  = ["linesdfpattern"; "linesdfpattern"].
Proof.
  apply (drawLine_programs_used browser1 glMatrix sixteenUnits ready source2
           dashedLayer [coord0; coord1; coord2]).
  - reflexivity.
  - exact two_is_positive.
  - reflexivity.
Defined.

Lemma variant_uniforms_survive_witness :
  sharedUniforms browser1 sixteenUnits ready dashedLayer tile1 !! "u_sdfgamma"
  = None
  /\ uniformAfter "u_sdfgamma"
       (trace (drawLineCoord browser1 sixteenUnits ready source1 dashedLayer
                 (antialiasingMatrixOf glMatrix ready) coord0)) None
     = Some (UNum (256 / (min (2 * 1) (4 * 2) * 256 * 1) / 2)%js).
Proof.
  apply (variant_uniforms_survive browser1 sixteenUnits ready source1
           dashedLayer (antialiasingMatrixOf glMatrix ready) coord0 bucket2
           [group "g0" 2; group "g1" 5] (programOf noOptions "linesdfpattern")).
  - reflexivity.
  - reflexivity.
  - reflexivity.
  - reflexivity.
  - reflexivity.
Defined.

Lemma colorLayersByLevel_spec_witness :
  exists layer' : StylesheetLayer,
    colorLayersByLevel [water; road; park] !! 0 = Some layer'
    /\ exists paint' : gmap string PaintValue,
         sheet_paint layer' = Some paint'
         /\ paint' !! "fill-color"
            = Some (PropertyFunction "level" [(0, "white"); (100, "blue")]%Z)
         /\ paint' !! "fill-opacity" = Some (Json "0.5").
Proof.
  destruct (proj1 (proj2 (colorLayersByLevel_spec [water; road; park]))
              0 water eq_refl)
    as (layer' & H0 & _ & _ & paint' & Hp & Hc & Hrest).
  exists layer'. split; [exact H0 |]. exists paint'.
  split; [exact Hp |]. split; [exact Hc |].
  rewrite Hrest by discriminate. reflexivity.
Defined.

(** [layersA] is passed, then passed again with a layer less. *)
Lemma createLayerFamilies_stale_witness :
  (createLayerFamilies ownFamilies layersA'
     (createLayerFamilies ownFamilies layersA (initialGlobals 1)).2).1
  = Some {| families_ref := 1; families_value := [["road"]; ["water"]] |}.
Proof.
  refine (proj1 (createLayerFamilies_stale ownFamilies layersA layersA'
                   (initialGlobals 1) _ eq_refl)).
  discriminate.
Defined.

(** Four calls, three changes of reference: three workers. *)
Lemma createLayerFamilies_runs_witness :
  workersCreated
    (afterCalls ownFamilies [layersA; layersA; layersB; layersA]
       (initialGlobals 1)) = 3
  /\ is_Some
       (createLayerFamilies ownFamilies layersB
          (afterCalls ownFamilies [layersA; layersA; layersB; layersA]
             (initialGlobals 1))).1.
Proof.
  pose proof (createLayerFamilies_runs ownFamilies
                [layersA; layersA; layersB; layersA] (initialGlobals 1))
    as (H1 & _ & _ & H4).
  split.
  - exact H1.
  - apply H4. left. reflexivity.
Defined.

End OnTheScene2.

(** ** Assets recorded and replayed *)

Section AssetsFacts.

Context {Params Glyphs Icons TileData Err Ans : Type}.
Context (stringify : Params -> string).

(** What [preloadAssets] records, [run] replays: after glyphs were asked of
    the style for some parameters, asking [run]'s [getGlyphs] for parameters
    with the same JSON text answers what the style answered, and for any
    other parameters what was kept before; and the replay never reports an
    error, not even the one the style reported. Icons are kept likewise, and
    tiles under their url. *)
Theorem assets_replayed
    (assets : Assets Glyphs Icons TileData)
    (err : option Err) (params asked : Params) (url fetched : string)
    (glyphs : option Glyphs) (icons : option Icons) (response : option TileData)
    (onGlyphs : option Err -> option Glyphs -> Assets Glyphs Icons TileData -> Ans)
    (onIcons : option Err -> option Icons -> Assets Glyphs Icons TileData -> Ans)
    (onTile : option Err -> option TileData -> Assets Glyphs Icons TileData -> Ans) :
  recordGlyphs stringify (fun _ k => k err glyphs) params
    (fun _ _ => replayGlyphs stringify asked onGlyphs) assets
  = onGlyphs None
      (if decide (stringify asked = stringify params) then glyphs
       else property (assets_glyphs assets) (stringify asked))
      {| assets_glyphs := <[stringify params := glyphs]> (assets_glyphs assets);
         assets_icons := assets_icons assets;
         assets_tiles := assets_tiles assets |}
  /\ recordIcons stringify (fun _ k => k err icons) params
       (fun _ _ => replayIcons stringify asked onIcons) assets
     = onIcons None
         (if decide (stringify asked = stringify params) then icons
          else property (assets_icons assets) (stringify asked))
         {| assets_glyphs := assets_glyphs assets;
            assets_icons := <[stringify params := icons]> (assets_icons assets);
            assets_tiles := assets_tiles assets |}
  /\ recordTile (fun _ k => k err response) url
       (fun _ _ => replayTile fetched onTile) assets
     = onTile None
         (if decide (fetched = url) then response
          else property (assets_tiles assets) fetched)
         {| assets_glyphs := assets_glyphs assets;
            assets_icons := assets_icons assets;
            assets_tiles := <[url := response]> (assets_tiles assets) |}.
Proof.
  unfold recordGlyphs, recordIcons, recordTile, replayGlyphs, replayIcons,
    replayTile, property.
  cbn [assets_glyphs assets_icons assets_tiles].
  split; [| split]; f_equal; case_decide as H.
  - rewrite H, lookup_insert_eq. reflexivity.
  - rewrite lookup_insert_ne by congruence. reflexivity.
  - rewrite H, lookup_insert_eq. reflexivity.
  - rewrite lookup_insert_ne by congruence. reflexivity.
  - rewrite H, lookup_insert_eq. reflexivity.
  - rewrite lookup_insert_ne by congruence. reflexivity.
Qed.

End AssetsFacts.
